(** * The onboarding agent: extraction, provisioning, population, registration

    A shallow embedding of the two agent variants of the repository,
    [src/agent.py] (class [OnboardingAgent], module [Agent] below) and
    [ai-onboarding-agent/agent.py] (the function-based variant, module
    [GoldenPath] below), and the properties of the onboarding pipeline
    proved or refuted on them.

    Python [str] values are modelled as [string]: sequences of 8-bit
    characters.  Case conversion, the whitespace class and the
    character classes of the patterns are those of Python on ASCII
    text ([str.isascii()]); what is proved of the text of a request
    through them is stated for ASCII requests.  Beyond ASCII Python
    differs: [str.lower()] and [re.IGNORECASE] fold letters such as
    U+212A, U+017F and U+0130 onto ASCII letters, and [\s] has
    U+0085 and U+00A0. *)

From Stdlib Require Import String Ascii Bool Arith Lia List.
From stdpp Require Import base option gmap strings.

Local Open Scope string_scope.

(** ** Python string primitives *)

Module Py.

Definition code (c : ascii) : nat := nat_of_ascii c.

Definition between (lo hi : nat) (c : ascii) : bool :=
  (lo <=? code c)%nat && (code c <=? hi)%nat.

Definition is_upper (c : ascii) : bool := between 65 90 c.
Definition is_lower (c : ascii) : bool := between 97 122 c.
Definition is_digit (c : ascii) : bool := between 48 57 c.

(** [str.isspace] on the ASCII range, which is also what [\s] matches
    there. *)
Definition is_space (c : ascii) : bool :=
  between 9 13 c || between 28 32 c.

(** [c.lower()] for an ASCII character. *)
Definition lower_char (c : ascii) : ascii :=
  if is_upper c then ascii_of_nat (code c + 32) else c.

Definition upper_char (c : ascii) : ascii :=
  if is_lower c then ascii_of_nat (code c - 32) else c.

(** [s.lower()] *)
Fixpoint lower (s : string) : string :=
  match s with
  | EmptyString => EmptyString
  | String c s' => String (lower_char c) (lower s')
  end.

Fixpoint all_chars (p : ascii -> bool) (s : string) : bool :=
  match s with
  | EmptyString => true
  | String c s' => p c && all_chars p s'
  end.

(** [s.isascii()] *)
Definition isascii (s : string) : bool := all_chars (fun c => (code c <? 128)%nat) s.

(** The first character of [s], if any, does not satisfy [p]. *)
Definition stops (p : ascii -> bool) (s : string) : bool :=
  match s with
  | EmptyString => true
  | String c _ => negb (p c)
  end.

(** [s[:n]] and [s[n:]] *)
Fixpoint take (n : nat) (s : string) : string :=
  match n, s with
  | S n', String c s' => String c (take n' s')
  | _, _ => EmptyString
  end.

Fixpoint drop (n : nat) (s : string) : string :=
  match n, s with
  | S n', String _ s' => drop n' s'
  | _, _ => s
  end.

(** [s.startswith(p)] *)
Fixpoint startswith (p s : string) : bool :=
  match p, s with
  | EmptyString, _ => true
  | String a p', String b s' => Ascii.eqb a b && startswith p' s'
  | String _ _, EmptyString => false
  end.

(** [s.endswith(p)] *)
Definition endswith (p s : string) : bool :=
  (String.length p <=? String.length s)%nat
  && String.eqb (drop (String.length s - String.length p) s) p.

(** [s.find(p)]: the index of the first occurrence of [p] in [s]. *)
Fixpoint find (p s : string) : option nat :=
  if startswith p s then Some 0
  else match s with
       | EmptyString => None
       | String _ s' => option_map S (find p s')
       end.

(** [p in s] *)
Definition contains (p s : string) : bool :=
  match find p s with Some _ => true | None => false end.

(** [s.strip()] and [s.strip(chars)] for a character class. *)
Fixpoint lstrip (p : ascii -> bool) (s : string) : string :=
  match s with
  | String c s' => if p c then lstrip p s' else s
  | EmptyString => EmptyString
  end.

Fixpoint rstrip (p : ascii -> bool) (s : string) : string :=
  match s with
  | String c s' =>
      match rstrip p s' with
      | EmptyString => if p c then EmptyString else String c EmptyString
      | r => String c r
      end
  | EmptyString => EmptyString
  end.

Definition strip (p : ascii -> bool) (s : string) : string :=
  rstrip p (lstrip p s).

End Py.

(** ** Regular expressions

  The patterns of both agents are sequences of literal characters,
  character classes, greedy [+] and [?] on a class, and one capturing
  group.  [run] is the backtracking matcher of [re] anchored at the
  current position; [search] is [re.search(...)] followed by
  [.group(1)]: the leftmost position at which [run] succeeds. *)

Module Re.

Inductive tok : Type :=
| Lit (c : ascii)            (* a literal character *)
| Cls (p : ascii -> bool)    (* [...] *)
| Plus (p : ascii -> bool)   (* [...]+ *)
| Opt (p : ascii -> bool)    (* [...]? *)
| Open                       (* ( *)
| Close.                     (* ) *)

Fixpoint lits (s : string) : list tok :=
  match s with
  | EmptyString => []
  | String c s' => Lit c :: lits s'
  end.

(** Matching one character, with or without [re.IGNORECASE]. *)
Definition lit_match (ic : bool) (c x : ascii) : bool :=
  if ic then Ascii.eqb (Py.lower_char c) (Py.lower_char x) else Ascii.eqb c x.

Definition cls_match (ic : bool) (p : ascii -> bool) (x : ascii) : bool :=
  p x || (ic && (p (Py.lower_char x) || p (Py.upper_char x))).

(** Greedy repetition: take as many characters of the class as
    possible, then give them back one at a time while the rest of the
    pattern [k] fails. *)
Fixpoint star {R : Type} (p : ascii -> bool) (k : string -> option R)
    (s : string) : option R :=
  match s with
  | String c s' =>
      if p c then
        match star p k s' with
        | Some r => Some r
        | None => k s
        end
      else k s
  | EmptyString => k s
  end.

(** [run ic ts start cap s]: match the tokens [ts] at the head of [s];
    [start] is the subject at the last [(], [cap] the text of group 1. *)
Fixpoint run (ic : bool) (ts : list tok) (start cap s : string) : option string :=
  match ts with
  | [] => Some cap
  | Lit c :: ts' =>
      match s with
      | String x s' => if lit_match ic c x then run ic ts' start cap s' else None
      | EmptyString => None
      end
  | Cls p :: ts' =>
      match s with
      | String x s' => if cls_match ic p x then run ic ts' start cap s' else None
      | EmptyString => None
      end
  | Plus p :: ts' =>
      match s with
      | String x s' =>
          if cls_match ic p x then star (cls_match ic p) (run ic ts' start cap) s'
          else None
      | EmptyString => None
      end
  | Opt p :: ts' =>
      match s with
      | String x s' =>
          if cls_match ic p x then
            match run ic ts' start cap s' with
            | Some r => Some r
            | None => run ic ts' start cap s
            end
          else run ic ts' start cap s
      | EmptyString => run ic ts' start cap s
      end
  | Open :: ts' => run ic ts' s cap s
  | Close :: ts' =>
      run ic ts' start (Py.take (String.length start - String.length s) start) s
  end.

Fixpoint search (ic : bool) (ts : list tok) (s : string) : option string :=
  match run ic ts EmptyString EmptyString s with
  | Some x => Some x
  | None =>
      match s with
      | String _ s' => search ic ts s'
      | EmptyString => None
      end
  end.

(** The subject as the matcher compares it to literals. *)
Definition folded (ic : bool) (s : string) : string := if ic then Py.lower s else s.

(** A pattern without parentheses. *)
Definition plain (ts : list tok) : bool :=
  forallb (fun t => match t with Open | Close => false | _ => true end) ts.

(** The character classes of the sources. *)
Definition space : ascii -> bool := Py.is_space.                 (* \s *)
Definition quote (c : ascii) : bool :=                           (* either quote character *)
  Ascii.eqb c "034"%char || Ascii.eqb c "039"%char.
Definition alnum_hyphen (c : ascii) : bool :=                    (* [a-zA-Z0-9-] *)
  Py.is_lower c || Py.is_upper c || Py.is_digit c || Ascii.eqb c "-"%char.
Definition alnum_hyphen_underscore (c : ascii) : bool :=         (* [a-zA-Z0-9\-_] *)
  alnum_hyphen c || Ascii.eqb c "_"%char.
Definition lower_digit_hyphen (c : ascii) : bool :=              (* [a-z0-9-] *)
  Py.is_lower c || Py.is_digit c || Ascii.eqb c "-"%char.

(** [for pattern in patterns: match = re.search(...); if match: ...; break] *)
Fixpoint first_match (ic : bool) (patterns : list (list tok)) (subject : string)
  : option string :=
  match patterns with
  | [] => None
  | p :: ps =>
      match search ic p subject with
      | Some x => Some x
      | None => first_match ic ps subject
      end
  end.

End Re.

(** More string primitives: [split], [replace], paths. *)

Module Str.

(** [s.split(sep)] for a one-character separator. *)
Fixpoint split (sep : ascii) (s : string) : list string :=
  match s with
  | EmptyString => [EmptyString]
  | String c s' =>
      if Ascii.eqb c sep then EmptyString :: split sep s'
      else match split sep s' with
           | h :: t => String c h :: t
           | [] => [String c EmptyString]
           end
  end.

(** [l[-1]] *)
Definition last (l : list string) : string := List.last l EmptyString.

(** [s.replace(old, new)] for a non-empty [old]: occurrences are
    replaced from the left and do not overlap; [skip] counts the
    characters of the occurrence still to be dropped. *)
Fixpoint replace_go (old new : string) (skip : nat) (s : string) : string :=
  match s with
  | EmptyString => EmptyString
  | String c s' =>
      match skip with
      | S k => replace_go old new k s'
      | O =>
          if Py.startswith old s
          then new +:+ replace_go old new (String.length old - 1) s'
          else String c (replace_go old new 0 s')
      end
  end.

Definition replace (old new s : string) : string := replace_go old new 0 s.

Definition slash : ascii := "/"%char.

(** The last character of [s] is [c]. *)
Fixpoint ends_in (c : ascii) (s : string) : bool :=
  match s with
  | EmptyString => false
  | String x EmptyString => Ascii.eqb x c
  | String _ s' => ends_in c s'
  end.

(** No character of [s] is a separator. *)
Definition no_slash (s : string) : bool :=
  Py.all_chars (fun c => negb (Ascii.eqb c slash)) s.

Definition is_abs (p : string) : bool :=
  match p with String c _ => Ascii.eqb c slash | EmptyString => false end.

(** [os.path.join(a, b)] for an empty [b]: [a] with a separator after it. *)
Definition sepd (a : string) : string :=
  match a with
  | EmptyString => EmptyString
  | _ => if ends_in slash a then a else a +:+ "/"
  end.

(** [os.path.join(a, b)] (posixpath). *)
Definition join (a b : string) : string :=
  if is_abs b then b else sepd a +:+ b.

(** [p] is the directory [d] or lies below it. *)
Definition under (d p : string) : bool :=
  String.eqb p d || Py.startswith (sepd d) p.

(** [sep.join(l)] *)
Fixpoint concat_lines (l : list string) : string :=
  match l with
  | [] => EmptyString
  | [x] => x
  | x :: l' => x +:+ String "010"%char (concat_lines l')
  end.

(** [os.path.dirname(p)] (posixpath): the text before the last
    separator, without trailing separators unless it consists of them. *)
Definition dirname (p : string) : string :=
  let i := String.length p - String.length (last (split slash p)) in
  let head := Py.take i p in
  if Py.all_chars (fun c => Ascii.eqb c slash) head then head
  else Py.rstrip (fun c => Ascii.eqb c slash) head.

(** [re.sub] of every character outside a class by nothing. *)
Fixpoint keep (p : ascii -> bool) (s : string) : string :=
  match s with
  | EmptyString => EmptyString
  | String c s' => if p c then String c (keep p s') else keep p s'
  end.

(** [re.sub] of every run of the character [c] by one [c]. *)
Fixpoint squeeze (c : ascii) (s : string) : string :=
  match s with
  | EmptyString => EmptyString
  | String x s' =>
      if Ascii.eqb x c
      then match s' with
           | String y _ => if Ascii.eqb y c then squeeze c s' else String x (squeeze c s')
           | EmptyString => String x EmptyString
           end
      else String x (squeeze c s')
  end.

End Str.

(** ** The environment of the agents

  Everything outside the two Python files is an oracle of the
  environment [Env]: the LLM endpoint, the hosting API, subprocesses,
  the cluster configuration, the template trees, the template engine,
  [tempfile] and the clock.  An oracle answers from the history of the
  external calls made so far, so the same call can be answered
  differently at different times.  The state [World] holds that
  history and the scratch file system the agents write to. *)

Module Sys.

(** Python exceptions, as far as the agents tell them apart. *)
Inductive exn : Type :=
| CalledProcessError (argv : list string) (code : nat) (stdout stderr : string)
| GithubException (status : nat) (msg : string)
| Exception (msg : string).

(** [str(e)]; the text of a [CalledProcessError] is abbreviated. *)
Definition str_exn (e : exn) : string :=
  match e with
  | CalledProcessError _ _ _ _ => "Command returned non-zero exit status"
  | GithubException _ msg => msg
  | Exception msg => msg
  end.

Inductive call : Type :=
| LlmCall (prompt : string)
| GetUser
| CreateRepo (name description : string)
| GetRepo (name : string)
| Exec (argv : list string)
| LoadKubeConfig
| MkTemp (path : string)
| RmTemp (path : string)
| Clock.

(** A repository object of the hosting API. *)
Record Repo : Type := { clone_url : string; html_url : string; repo_id : string }.

Inductive gh_reply : Type :=
| GhOk (r : Repo)
| GhRaises (e : exn).

(** The end of a subprocess: an exit status with the captured
    output, or no process at all. *)
Inductive proc : Type :=
| Exit (code : nat) (stdout stderr : string)
| NoSpawn (msg : string).

(** What [json.loads] returns: an object, of which the string
    members are kept, or any other JSON value. *)
Inductive json : Type :=
| JObject (members : list (string * string))
| JOther.

(** One directory of an [os.walk]: its path relative to the root of
    the walk and its files with their contents. *)
Definition listing : Type := list (string * list (string * string)).

Record Env : Type := {
  llm : list call -> string -> option string;
  json_loads : string -> option json;
  gh_user : list call -> option exn;
  gh_create_repo : list call -> string -> string -> gh_reply;
  gh_get_repo : list call -> string -> gh_reply;
  exec : list call -> list string -> proc;
  kube_config : list call -> option exn;
  tree : string -> option listing;
  render : string -> list (string * string) -> option string;
  tmpname : list call -> string;
  now : list call -> string
}.

Record World : Type := {
  trace : list call;
  fs : gmap string string;
  dirs : gset string
}.

Inductive outcome (A : Type) : Type :=
| Returns (a : A)
| Raises (e : exn).
Arguments Returns {A} a.
Arguments Raises {A} e.

Definition M (A : Type) : Type := World -> outcome A * World.

Definition ret {A : Type} (a : A) : M A := fun w => (Returns a, w).

Definition raise {A : Type} (e : exn) : M A := fun w => (Raises e, w).

Definition bind {A B : Type} (m : M A) (k : A -> M B) : M B :=
  fun w =>
    match m w with
    | (Returns a, w') => k a w'
    | (Raises e, w') => (Raises e, w')
    end.

(** [try: m  except Exception as e: h e] *)
Definition try_except {A : Type} (m : M A) (h : exn -> M A) : M A :=
  fun w =>
    match m w with
    | (Returns a, w') => (Returns a, w')
    | (Raises e, w') => h e w'
    end.

(** [try: m  finally: c] *)
Definition finally {A : Type} (m : M A) (c : M unit) : M A :=
  fun w =>
    match m w with
    | (r, w1) =>
        match c w1 with
        | (Returns _, w2) => (r, w2)
        | (Raises e, w2) => (Raises e, w2)
        end
    end.

Definition logged (c : call) (w : World) : World :=
  {| trace := trace w ++ [c]; fs := fs w; dirs := dirs w |}.

(** Consult an oracle on the history so far and record the call. *)
Definition ask {B : Type} (c : call) (oracle : list call -> B) : M B :=
  fun w => (Returns (oracle (trace w)), logged c w).

(** [subprocess.run(argv, check=check)] *)
Definition subprocess_run (env : Env) (argv : list string) (check : bool) : M proc :=
  bind (ask (Exec argv) (fun h => exec env h argv)) (fun p =>
    match p with
    | Exit 0 _ _ => ret p
    | Exit (S n) out err =>
        if check then raise (CalledProcessError argv (S n) out err) else ret p
    | NoSpawn msg => raise (Exception msg)
    end).

(** File system operations. *)
Definition write_file (path content : string) : M unit :=
  fun w => (Returns tt,
            {| trace := trace w; fs := <[path := content]> (fs w); dirs := dirs w |}).

Definition makedirs (path : string) : M unit :=
  fun w => (Returns tt,
            {| trace := trace w; fs := fs w; dirs := {[path]} ∪ dirs w |}).

Definition unlink (path : string) : M unit :=
  fun w =>
    match fs w !! path with
    | Some _ => (Returns tt,
                 {| trace := trace w ++ [RmTemp path];
                    fs := delete path (fs w); dirs := dirs w |})
    | None => (Raises (Exception "No such file or directory"), w)
    end.

Definition outside (d : string) (p : string) : Prop := Str.under d p = false.

#[global] Instance outside_dec (d p : string) : Decision (outside d p).
Proof. unfold outside. apply _. Defined.

(** The file system without the directory [d] and what lies below it. *)
Definition erase (d : string) (w : World) : World :=
  {| trace := trace w;
     fs := filter (fun kv => outside d kv.1) (fs w);
     dirs := filter (outside d) (dirs w) |}.

(** [shutil.rmtree(d)], as the exit of a [TemporaryDirectory] runs it. *)
Definition rmtree (d : string) : M unit :=
  fun w => (Returns tt, erase d (logged (RmTemp d) w)).

(** [tempfile.mkdtemp()] *)
Definition mkdtemp (env : Env) : M string :=
  fun w =>
    let d := tmpname env (trace w) in
    (Returns d,
     {| trace := trace w ++ [MkTemp d]; fs := fs w; dirs := {[d]} ∪ dirs w |}).

(** [with tempfile.TemporaryDirectory() as d: body d] *)
Definition with_temporary_directory {A : Type} (env : Env) (body : string -> M A) : M A :=
  bind (mkdtemp env) (fun d => finally (body d) (rmtree d)).

(** [with tempfile.NamedTemporaryFile(mode='w', suffix=suffix,
    delete=False) as f: f.write(content)]; returns [f.name]. *)
Definition named_temporary_file (env : Env) (suffix content : string) : M string :=
  fun w =>
    let f := tmpname env (trace w) +:+ suffix in
    (Returns f,
     {| trace := trace w ++ [MkTemp f]; fs := <[f := content]> (fs w); dirs := dirs w |}).

(** [os.path.exists] on a template directory. *)
Definition path_exists (env : Env) (path : string) : bool :=
  match tree env path with Some _ => true | None => false end.

(** [os.walk(path)]: nothing when [path] is not a directory. *)
Definition walk (env : Env) (path : string) : listing :=
  match tree env path with Some l => l | None => [] end.

End Sys.

Notation "'let*' x ':=' m 'in' k" := (Sys.bind m (fun x => k))
  (at level 10, x name, m at level 100, k at level 200).

(** ** [src/agent.py]: the class [OnboardingAgent] *)

Module Agent.
Import Sys.

Record AppInfo : Type := {
  name : string;
  description : string;
  language : string;
  author : string;
  repository_url : string
}.

Record RepositoryInfo : Type := {
  source_repo_url : string;
  gitops_repo_url : string;
  source_repo_id : string;
  gitops_repo_id : string
}.

(** The fields [__init__] reads from the process environment. *)
Record Config : Type := {
  github_token : string;
  github_username : string;
  openrouter_api_key : string;
  nodejs_template_path : string;
  gitops_template_path : string;
  argocd_namespace : string;
  argocd_project : string
}.

(** [_validate_config], run by [__init__]: the [ValueError] it raises,
    if any.  An unset variable is the empty string. *)
Definition _validate_config (cfg : Config) (env : Env) : option exn :=
  let required_vars :=
    [ github_token cfg; github_username cfg; openrouter_api_key cfg;
      nodejs_template_path cfg; gitops_template_path cfg ] in
  if existsb (fun v => String.eqb v EmptyString) required_vars
  then Some (Exception "Missing required environment variables")
  else if negb (path_exists env (nodejs_template_path cfg))
  then Some (Exception ("NodeJS template path does not exist: " +:+ nodejs_template_path cfg))
  else if negb (path_exists env (gitops_template_path cfg))
  then Some (Exception ("GitOps template path does not exist: " +:+ gitops_template_path cfg))
  else None.

Definition dq : string := String "034"%char EmptyString.

(** The f-string of [extract_app_info]. *)
Definition prompt (request : string) : string :=
  "
        Extract application information from this developer request: " +:+ dq +:+ request +:+ dq +:+ "

        Return a JSON object with:
        - name: application name (lowercase, hyphenated)
        - description: brief description of what this application does
        - language: programming language (default to " +:+ dq +:+ "NodeJS" +:+ dq +:+ " if not specified)
        - author: developer name (default to " +:+ dq +:+ "AI Agent" +:+ dq +:+ " if not specified)

        Examples:
        Input: " +:+ dq +:+ "I need to deploy my new NodeJS service called inventory-api" +:+ dq +:+ "
        Output: {" +:+ dq +:+ "name" +:+ dq +:+ ": " +:+ dq +:+ "inventory-api" +:+ dq +:+ ", " +:+ dq +:+ "description" +:+ dq +:+ ": " +:+ dq +:+ "NodeJS service for inventory management" +:+ dq +:+ ", " +:+ dq +:+ "language" +:+ dq +:+ ": " +:+ dq +:+ "NodeJS" +:+ dq +:+ ", " +:+ dq +:+ "author" +:+ dq +:+ ": " +:+ dq +:+ "AI Agent" +:+ dq +:+ "}

        Input: " +:+ dq +:+ "Create a React frontend called user-dashboard" +:+ dq +:+ "
        Output: {" +:+ dq +:+ "name" +:+ dq +:+ ": " +:+ dq +:+ "user-dashboard" +:+ dq +:+ ", " +:+ dq +:+ "description" +:+ dq +:+ ": " +:+ dq +:+ "React frontend for user dashboard" +:+ dq +:+ ", " +:+ dq +:+ "language" +:+ dq +:+ ": " +:+ dq +:+ "React" +:+ dq +:+ ", " +:+ dq +:+ "author" +:+ dq +:+ ": " +:+ dq +:+ "AI Agent" +:+ dq +:+ "}

        Now process this request: " +:+ dq +:+ request +:+ dq +:+ "

        Respond only with valid JSON, no additional text.
        ".

(** [d.get(key, default)] *)
Fixpoint get (d : list (string * string)) (key default : string) : string :=
  match d with
  | [] => default
  | (k, v) :: d' => if String.eqb k key then v else get d' key default
  end.

Definition _call_openrouter_api (env : Env) (prompt : string) : M string :=
  let* r := ask (LlmCall prompt) (fun h => llm env h prompt) in
  match r with
  | Some content => ret content
  | None => raise (Exception "OpenRouter API error")
  end.

Import Re.

(** The pattern [kw\s+Q?([a-zA-Z0-9\-_]+)Q?], where [Q] is the class
    of the two quote characters. *)
Definition keyword_pattern (kw : string) : list tok :=
  (lits kw ++ [Plus space; Opt quote; Open; Plus alnum_hyphen_underscore; Close; Opt quote])%list.

(** The pattern [Q([a-zA-Z0-9\-_]+)Q]. *)
Definition quoted_pattern : list tok :=
  [Cls quote; Open; Plus alnum_hyphen_underscore; Close; Cls quote].

Definition name_patterns : list (list tok) :=
  [ keyword_pattern "called"; keyword_pattern "named"; quoted_pattern ].

Definition _fallback_extraction (request : string) : AppInfo :=
  let request_lower := Py.lower request in
  let app_name :=
    match first_match false name_patterns request_lower with
    | Some x => x
    | None => "new-app"
    end in
  {| name := app_name;
     description := "Application created from request: " +:+ Py.take 100 request +:+ "...";
     language := "NodeJS";
     author := "AI Agent";
     repository_url := EmptyString |}.

Definition extract_app_info (env : Env) (natural_language_request : string) : M AppInfo :=
  try_except
    (let* response := _call_openrouter_api env (prompt natural_language_request) in
     match json_loads env (Py.strip Py.is_space response) with
     | Some (JObject app_data) =>
         ret {| name := get app_data "name" "new-app";
                description := get app_data "description" "New application created by AI agent";
                language := get app_data "language" "NodeJS";
                author := get app_data "author" "AI Agent";
                repository_url := EmptyString |}
     | Some JOther => raise (Exception "object has no attribute 'get'")
     | None => raise (Exception "JSONDecodeError")
     end)
    (fun _ => ret (_fallback_extraction natural_language_request)).

(** [try: m  except GithubException as e: h status] *)
Definition try_except_github {A : Type} (m : M A) (h : nat -> string -> M A) : M A :=
  fun w =>
    match m w with
    | (Raises (GithubException status msg), w') => h status msg w'
    | r => r
    end.

(** [try: m  except subprocess.CalledProcessError as e: h] *)
Definition try_except_process {A : Type} (m : M A) (h : M A) : M A :=
  fun w =>
    match m w with
    | (Raises (CalledProcessError _ _ _ _), w') => h w'
    | r => r
    end.

Definition get_user (env : Env) : M unit :=
  let* r := ask GetUser (gh_user env) in
  match r with
  | None => ret tt
  | Some e => raise e
  end.

Definition create_repo (env : Env) (repo_name repo_description : string) : M Repo :=
  let* r := ask (CreateRepo repo_name repo_description)
                (fun h => gh_create_repo env h repo_name repo_description) in
  match r with
  | GhOk repo => ret repo
  | GhRaises e => raise e
  end.

Definition get_repo (env : Env) (repo_name : string) : M Repo :=
  let* r := ask (GetRepo repo_name) (fun h => gh_get_repo env h repo_name) in
  match r with
  | GhOk repo => ret repo
  | GhRaises e => raise e
  end.

Definition _get_existing_repositories (cfg : Config) (env : Env) (app_name : string)
  : M RepositoryInfo :=
  try_except_github
    (let* _ := get_user env in
     let source_repo_name := app_name +:+ "-source" in
     let gitops_repo_name := app_name +:+ "-gitops" in
     let* source_repo := get_repo env source_repo_name in
     let* gitops_repo := get_repo env gitops_repo_name in
     ret {| source_repo_url := clone_url source_repo;
            gitops_repo_url := clone_url gitops_repo;
            source_repo_id := repo_id source_repo;
            gitops_repo_id := repo_id gitops_repo |})
    (fun _ _ =>
       let username := github_username cfg in
       ret {| source_repo_url :=
                "https://github.com/" +:+ username +:+ "/" +:+ app_name +:+ "-source.git";
              gitops_repo_url :=
                "https://github.com/" +:+ username +:+ "/" +:+ app_name +:+ "-gitops.git";
              source_repo_id := "unknown";
              gitops_repo_id := "unknown" |}).

Definition create_github_repo (cfg : Config) (env : Env) (app_info : AppInfo)
  : M RepositoryInfo :=
  try_except_github
    (let* _ := get_user env in
     let source_repo_name := name app_info +:+ "-source" in
     let* source_repo :=
       create_repo env source_repo_name ("Source code for " +:+ description app_info) in
     let gitops_repo_name := name app_info +:+ "-gitops" in
     let* gitops_repo :=
       create_repo env gitops_repo_name
         ("GitOps configuration for " +:+ description app_info) in
     ret {| source_repo_url := clone_url source_repo;
            gitops_repo_url := clone_url gitops_repo;
            source_repo_id := repo_id source_repo;
            gitops_repo_id := repo_id gitops_repo |})
    (fun status msg =>
       if Nat.eqb status 422
       then _get_existing_repositories cfg env (name app_info)
       else raise (GithubException status msg)).

(** [for x in l: f x] *)
Fixpoint for_each {A : Type} (l : list A) (f : A -> M unit) : M unit :=
  match l with
  | [] => ret tt
  | x :: l' => let* _ := f x in for_each l' f
  end.

Definition template_extensions : list string :=
  [".js"; ".json"; ".md"; ".yaml"; ".yml"; ".env.example"].

Definition _should_process_as_template (filename : string) : bool :=
  existsb (fun ext => Py.endswith ext filename) template_extensions.

(** The keyword arguments of [template.render]. *)
Definition template_vars (cfg : Config) (app_info : AppInfo) : list (string * string) :=
  [ ("appName", name app_info);
    ("description", description app_info);
    ("language", language app_info);
    ("author", author app_info);
    ("repositoryUrl",
      "https://github.com/" +:+ github_username cfg +:+ "/" +:+ name app_info +:+ "-source");
    ("imageName", github_username cfg +:+ "/" +:+ name app_info);
    ("imageTag", "latest");
    ("ingressHost", name app_info +:+ ".local") ].

(** [src] is the content of the source file; reading it as text and
    rendering it are one step of the template engine, [None] when either
    throws.  [shutil.copy2] writes the content unchanged. *)
Definition _process_template_file (cfg : Config) (env : Env) (src dest_file : string)
    (app_info : AppInfo) : M unit :=
  try_except
    (match render env src (template_vars cfg app_info) with
     | Some rendered_content => write_file dest_file rendered_content
     | None => raise (Exception "template error")
     end)
    (fun _ => write_file dest_file src).

(** [dest_file] in the loop of [_copy_template_files]. *)
Definition dest_of (repo_path rel_path file : string) : string :=
  if String.eqb rel_path "." then Str.join repo_path file
  else Str.join (Str.join repo_path rel_path) file.

Definition _copy_template_files (cfg : Config) (env : Env) (template_path repo_path : string)
    (app_info : AppInfo) : M unit :=
  for_each (walk env template_path) (fun entry =>
    let rel_path := fst entry in
    let* _ :=
      if String.eqb rel_path "." then ret tt
      else makedirs (Str.join repo_path rel_path) in
    for_each (snd entry) (fun file =>
      let dest_file := dest_of repo_path rel_path (fst file) in
      if _should_process_as_template (fst file)
      then _process_template_file cfg env (snd file) dest_file app_info
      else write_file dest_file (snd file))).

Definition git (env : Env) (repo_path : string) (args : list string) : M unit :=
  let* _ := subprocess_run env ("git" :: "-C" :: repo_path :: args) true in ret tt.

Definition _commit_and_push (env : Env) (repo_path : string) (app_info : AppInfo) : M unit :=
  let* _ := git env repo_path ["config"; "user.name"; "AI Onboarding Agent"] in
  let* _ := git env repo_path ["config"; "user.email"; "agent@example.com"] in
  let* _ := git env repo_path ["add"; "."] in
  let commit_message :=
    "Initial commit for " +:+ name app_info
      +:+ String "010"%char (String "010"%char (description app_info)) in
  let* _ := git env repo_path ["commit"; "-m"; commit_message] in
  git env repo_path ["push"].

(** A successful [git clone url path] leaves the directory [path]. *)
Definition git_clone (env : Env) (repo_url repo_path : string) : M unit :=
  let* _ := subprocess_run env ["git"; "clone"; repo_url; repo_path] true in
  makedirs repo_path.

(** [repo_url.split('/')[-1].replace('.git', '')] *)
Definition repo_name_of (repo_url : string) : string :=
  Str.replace ".git" EmptyString (Str.last (Str.split Str.slash repo_url)).

Definition populate_repo_from_stack (cfg : Config) (env : Env)
    (repo_url template_path : string) (app_info : AppInfo) : M bool :=
  with_temporary_directory env (fun temp_dir =>
    try_except
      (let repo_name := repo_name_of repo_url in
       let repo_path := Str.join temp_dir repo_name in
       let* _ := git_clone env repo_url repo_path in
       let* _ := _copy_template_files cfg env template_path repo_path app_info in
       let* _ := _commit_and_push env repo_path app_info in
       ret true)
      (fun _ => ret false)).

Definition manifest_lines (cfg : Config) (app_info : AppInfo) (gitops_repo_url : string)
  : list string :=
  [ "apiVersion: argoproj.io/v1alpha1";
    "kind: Application";
    "metadata:";
    "  name: " +:+ name app_info;
    "  namespace: " +:+ argocd_namespace cfg;
    "  labels:";
    "    app: " +:+ name app_info;
    "    created-by: ai-onboarding-agent";
    "spec:";
    "  project: " +:+ argocd_project cfg;
    "  source:";
    "    repoURL: " +:+ gitops_repo_url;
    "    targetRevision: HEAD";
    "    path: .";
    "  destination:";
    "    server: https://kubernetes.default.svc";
    "    namespace: default";
    "  syncPolicy:";
    "    automated:";
    "      prune: true";
    "      selfHeal: true";
    "    syncOptions:";
    "    - CreateNamespace=true";
    "    - PrunePropagationPolicy=foreground";
    "    - PruneLast=true";
    "    retry:";
    "      limit: 5";
    "      backoff:";
    "        duration: 5s";
    "        factor: 2";
    "        maxDuration: 3m";
    "  ignoreDifferences:";
    "  - group: apps";
    "    kind: Deployment";
    "    jsonPointers:";
    "    - /spec/replicas" ].

(** The f-string of the manifest, line by line. *)
Definition _generate_argocd_manifest (cfg : Config) (app_info : AppInfo)
    (gitops_repo_url : string) : string :=
  Str.concat_lines (manifest_lines cfg app_info gitops_repo_url).

Definition _apply_kubernetes_manifest (env : Env) (manifest app_name : string) : M bool :=
  let* manifest_file := named_temporary_file env ".yaml" manifest in
  finally
    (try_except_process
       (let* _ := subprocess_run env ["kubectl"; "apply"; "-f"; manifest_file] true in
        ret true)
       (ret false))
    (unlink manifest_file).

Definition load_kube_config (env : Env) : M unit :=
  let* r := ask LoadKubeConfig (kube_config env) in
  match r with
  | None => ret tt
  | Some e => raise e
  end.

Definition create_argocd_application (cfg : Config) (env : Env) (app_info : AppInfo)
    (gitops_repo_url : string) : M bool :=
  try_except
    (let* _ := load_kube_config env in
     let app_manifest := _generate_argocd_manifest cfg app_info gitops_repo_url in
     _apply_kubernetes_manifest env app_manifest (name app_info))
    (fun _ => ret false).

(** The dictionary [result] of [run_onboarding_flow]. *)
Record Result : Type := {
  success : bool;
  app_info : option AppInfo;
  repositories : option RepositoryInfo;
  argocd_created : bool;
  error : option string;
  timestamp : string
}.

Definition set_argocd_namespace (cfg : Config) (ns : string) : Config :=
  {| github_token := github_token cfg; github_username := github_username cfg;
     openrouter_api_key := openrouter_api_key cfg;
     nodejs_template_path := nodejs_template_path cfg;
     gitops_template_path := gitops_template_path cfg;
     argocd_namespace := ns; argocd_project := argocd_project cfg |}.

Definition set_app_info (r : Result) (a : AppInfo) : Result :=
  {| success := success r; app_info := Some a; repositories := repositories r;
     argocd_created := argocd_created r; error := error r; timestamp := timestamp r |}.

Definition set_repositories (r : Result) (i : RepositoryInfo) : Result :=
  {| success := success r; app_info := app_info r; repositories := Some i;
     argocd_created := argocd_created r; error := error r; timestamp := timestamp r |}.

Definition set_argocd_created (r : Result) (b : bool) : Result :=
  {| success := success r; app_info := app_info r; repositories := repositories r;
     argocd_created := b; error := error r; timestamp := timestamp r |}.

Definition set_success (r : Result) (b : bool) : Result :=
  {| success := b; app_info := app_info r; repositories := repositories r;
     argocd_created := argocd_created r; error := error r; timestamp := timestamp r |}.

Definition set_error (r : Result) (e : string) : Result :=
  {| success := success r; app_info := app_info r; repositories := repositories r;
     argocd_created := argocd_created r; error := Some e; timestamp := timestamp r |}.

(** [except Exception as e: result['error'] = str(e); return result] *)
Definition handler (result : Result) (e : exn) : M Result :=
  ret (set_error result (str_exn e)).

(** One statement of the [try] block: when it raises, the handler
    returns the dictionary as filled so far. *)
Definition stage {A : Type} (result : Result) (m : M A) (k : A -> M Result) : M Result :=
  fun w =>
    match m w with
    | (Returns a, w') => k a w'
    | (Raises e, w') => handler result e w'
    end.

Definition run_onboarding_flow (cfg : Config) (env : Env) (natural_language_request : string)
  : M Result :=
  let* ts := ask Clock (now env) in
  let result :=
    {| success := false; app_info := None; repositories := None;
       argocd_created := false; error := None; timestamp := ts |} in
  stage result (extract_app_info env natural_language_request) (fun app_info =>
  let result := set_app_info result app_info in
  stage result (create_github_repo cfg env app_info) (fun repo_info =>
  let result := set_repositories result repo_info in
  stage result
    (populate_repo_from_stack cfg env (source_repo_url repo_info)
       (nodejs_template_path cfg) app_info) (fun source_success =>
  if negb source_success
  then handler result (Exception "Failed to populate source repository")
  else
  stage result
    (populate_repo_from_stack cfg env (gitops_repo_url repo_info)
       (gitops_template_path cfg) app_info) (fun gitops_success =>
  if negb gitops_success
  then handler result (Exception "Failed to populate GitOps repository")
  else
  stage result
    (create_argocd_application cfg env app_info (gitops_repo_url repo_info))
    (fun argocd_success =>
  let result := set_argocd_created result argocd_success in
  let result := set_success result true in
  ret result))))).

(** *** Construction and the command line *)

(** [os.getenv(key, default)] on the process environment. *)
Definition getenv (environ : gmap string string) (key default : string) : string :=
  match environ !! key with
  | Some value => value
  | None => default
  end.

(** [__init__]: the attributes are read from the process environment
    and validated.  An unset required variable is read as the empty
    string, which [_validate_config] rejects as it rejects [None].  The
    model name [OPENROUTER_MODEL] only reaches the body of the request to
    the endpoint, for which the oracle [llm] stands. *)
Definition __init__ (environ : gmap string string) (env : Env) : M Config :=
  let cfg :=
    {| github_token := getenv environ "GITHUB_TOKEN" EmptyString;
       github_username := getenv environ "GITHUB_USERNAME" EmptyString;
       openrouter_api_key := getenv environ "OPENROUTER_API_KEY" EmptyString;
       nodejs_template_path := getenv environ "NODEJS_TEMPLATE_PATH" EmptyString;
       gitops_template_path := getenv environ "GITOPS_TEMPLATE_PATH" EmptyString;
       argocd_namespace := getenv environ "ARGOCD_NAMESPACE" "argocd";
       argocd_project := getenv environ "ARGOCD_PROJECT" "default" |} in
  match _validate_config cfg env with
  | Some e => raise e
  | None => ret cfg
  end.

Definition newline : string := String "010"%char EmptyString.

(** A pictograph of the source file, by the bytes it has there. *)
Definition glyph (codes : list nat) : string :=
  fold_right (fun n s => String (ascii_of_nat n) s) EmptyString codes.

(** [str(b)] for a [bool]. *)
Definition py_bool (b : bool) : string := if b then "True" else "False".

(** [str(x)] for a string or [None]. *)
Definition py_str (x : option string) : string :=
  match x with
  | Some s => s
  | None => "None"
  end.

Definition usage : list string :=
  [ "Usage: python agent.py " +:+ dq +:+ "<natural language request>" +:+ dq;
    "Example: python agent.py " +:+ dq
      +:+ "I need to deploy my new NodeJS service called inventory-api" +:+ dq ].

(** The handler of [main]: what has been printed so far, the message
    of the exception, and [sys.exit(1)]. *)
Definition failed (printed : list string) (e : exn) : M (nat * list string) :=
  ret (1, (printed
           ++ [ newline +:+ glyph [239; 163; 191; 195; 188; 195; 173; 226; 128; 162]
                  +:+ " Agent execution failed: " +:+ str_exn e ])%list).

(** The lines [main] prints when the flow reports success. *)
Definition say_done : string :=
  newline +:+ glyph [239; 163; 191; 195; 188; 195; 169; 195; 162]
    +:+ " Onboarding completed successfully!".

Definition say_app (app : AppInfo) : list string :=
  [ glyph [239; 163; 191; 195; 188; 195; 172; 194; 182] +:+ " App: " +:+ name app;
    glyph [239; 163; 191; 195; 188; 195; 172; 195; 185]
      +:+ " Description: " +:+ description app ].

Definition say_repositories (repos : RepositoryInfo) : list string :=
  [ glyph [239; 163; 191; 195; 188; 195; 174; 195; 179]
      +:+ " Source Repository: " +:+ source_repo_url repos;
    glyph [226; 128; 154; 195; 182; 195; 180; 195; 148; 226; 136; 143; 195; 168]
      +:+ "  GitOps Repository: " +:+ gitops_repo_url repos ].

Definition say_registration (created : bool) : list string :=
  [ glyph [239; 163; 191; 195; 188; 195; 182; 195; 132]
      +:+ " ArgoCD Application: " +:+ py_bool created;
    newline +:+ glyph [239; 163; 191; 195; 188; 195; 172; 195; 164]
      +:+ " Check ArgoCD UI for deployment status" ].

Definition say_failed (error : option string) : string :=
  newline +:+ glyph [226; 128; 154; 195; 185; 195; 165]
    +:+ " Onboarding failed: " +:+ py_str error.

(** [main]: the exit status of the process and what it printed, one
    element for each [print].  [sys.exit] is not an [Exception]: the
    handler does not see it.  Reading an attribute of [None] raises. *)
Definition main (argv : list string) (environ : gmap string string) (env : Env)
  : M (nat * list string) :=
  match argv with
  | _ :: natural_language_request :: _ =>
      try_except
        (let* cfg := __init__ environ env in
         let* result := run_onboarding_flow cfg env natural_language_request in
         if success result then
           match app_info result with
           | None =>
               failed [say_done] (Exception "'NoneType' object has no attribute 'name'")
           | Some app =>
               match repositories result with
               | None =>
                   failed (say_done :: say_app app)
                     (Exception "'NoneType' object has no attribute 'source_repo_url'")
               | Some repos =>
                   ret (0, (say_done :: say_app app ++ say_repositories repos
                              ++ say_registration (argocd_created result))%list)
               end
           end
         else ret (1, [say_failed (error result)]))
        (fun e => failed [] e)
  | _ => ret (1, usage)
  end.

End Agent.

(** ** [ai-onboarding-agent/agent.py]: the function-based variant *)

Module GoldenPath.
Import Sys Re.

Definition dq : string := String "034"%char EmptyString.
Definition newline : string := String "010"%char EmptyString.

(** [rm -rf path] run as a subprocess without [check]: the tree is gone
    when the command exits with status 0. *)
Definition rm_rf (env : Env) (path : string) : M unit :=
  let* p := subprocess_run env ["rm"; "-rf"; path] false in
  match p with
  | Exit 0 _ _ => fun w => (Returns tt, erase path w)
  | _ => ret tt
  end.

Definition git_clone (env : Env) (repo_url repo_path : string) : M unit :=
  let* _ := subprocess_run env ["git"; "clone"; repo_url; repo_path] true in
  makedirs repo_path.

Definition for_each {A : Type} := @Agent.for_each A.

Definition populate_repo_from_stack (env : Env) (repo_url template_path app_name : string)
    (description : string) : M bool :=
  let repo_name := Agent.repo_name_of repo_url in
  let clone := "/tmp/" +:+ repo_name in
  let* _ := rm_rf env clone in
  let* _ := git_clone env repo_url clone in
  if negb (path_exists env template_path) then ret false
  else
    let* _ :=
      for_each (walk env template_path) (fun entry =>
        for_each (snd entry) (fun file =>
          let relative_path :=
            if String.eqb (fst entry) "." then fst file
            else Str.join (fst entry) (fst file) in
          let target_path := "/tmp/" +:+ repo_name +:+ "/" +:+ relative_path in
          let* _ := makedirs (Str.dirname target_path) in
          match render env (snd file) [("appName", app_name); ("description", description)] with
          | Some rendered_content => write_file target_path rendered_content
          | None => raise (Exception "template error")
          end)) in
    let* _ := subprocess_run env ["git"; "-C"; clone; "add"; "."] true in
    let* _ := subprocess_run env
                ["git"; "-C"; clone; "commit"; "-m"; "Initial commit from Golden Path Agent"]
                true in
    let* _ := subprocess_run env ["git"; "-C"; clone; "push"] true in
    ret true.

Definition manifest_lines (app_name gitops_repo_url : string) : list string :=
  [ "apiVersion: argoproj.io/v1alpha1";
    "kind: Application";
    "metadata:";
    "  name: " +:+ app_name;
    "  namespace: argocd";
    "spec:";
    "  project: default";
    "  source:";
    "    repoURL: " +:+ gitops_repo_url;
    "    targetRevision: HEAD";
    "    path: .";
    "  destination:";
    "    server: https://kubernetes.default.svc";
    "    namespace: default";
    "  syncPolicy:";
    "    automated:";
    "      prune: true";
    "      selfHeal: true" ].

(** The f-string [app_manifest]; it ends with a newline. *)
Definition app_manifest (app_name gitops_repo_url : string) : string :=
  Str.concat_lines (manifest_lines app_name gitops_repo_url) +:+ newline.

Definition create_argocd_application (env : Env) (app_name gitops_repo_url : string) : M bool :=
  let* _ := Agent.load_kube_config env in
  let manifest_file := "/tmp/" +:+ app_name +:+ "-argocd.yaml" in
  let* _ := write_file manifest_file (app_manifest app_name gitops_repo_url) in
  Agent.try_except_process
    (let* _ := subprocess_run env ["kubectl"; "apply"; "-f"; manifest_file] true in
     ret true)
    (ret false).

Definition prompt (request : string) : string :=
  "
        Extract the application name from this developer request: " +:+ dq +:+ request +:+ dq +:+ "

        Return only the application name in lowercase with hyphens, no other text.
        Examples:
        - " +:+ dq +:+ "I need a new NodeJS service called inventory-api" +:+ dq +:+ " -> " +:+ dq +:+ "inventory-api" +:+ dq +:+ "
        - " +:+ dq +:+ "Deploy my user-management service" +:+ dq +:+ " -> " +:+ dq +:+ "user-management" +:+ dq +:+ "
        - " +:+ dq +:+ "Create a payment-processor app" +:+ dq +:+ " -> " +:+ dq +:+ "payment-processor" +:+ dq +:+ "
        ".

(** The pattern [kw\s+([a-zA-Z0-9-]+)]. *)
Definition keyword_pattern (kw : string) : list tok :=
  (lits kw ++ [Plus space; Open; Plus alnum_hyphen; Close])%list.

(** The pattern [([a-zA-Z0-9-]+)\s+kw]. *)
Definition suffix_pattern (kw : string) : list tok :=
  ([Open; Plus alnum_hyphen; Close; Plus space] ++ lits kw)%list.

Definition patterns : list (list tok) :=
  [ keyword_pattern "called"; keyword_pattern "named";
    suffix_pattern "service"; suffix_pattern "app";
    keyword_pattern "deploy"; keyword_pattern "create" ].

(** The pattern loop and the default after it. *)
Definition fallback_name (request : string) : string :=
  match first_match true patterns request with
  | Some x => Py.lower x
  | None => "my-app"
  end.

(** The clean-up of the model's answer. *)
Definition clean (content : string) : string :=
  let app_name := Py.lower (Py.strip Py.is_space content) in
  let app_name := Str.keep lower_digit_hyphen app_name in
  Py.strip (fun c => Ascii.eqb c "-"%char) (Str.squeeze "-"%char app_name).

Definition extract_app_name_from_request (env : Env) (request : string) : M string :=
  let* answer :=
    try_except
      (let* r := ask (LlmCall (prompt request)) (fun h => llm env h (prompt request)) in
       match r with
       | Some content =>
           let app_name := clean content in
           match app_name with
           | EmptyString => ret None
           | _ => ret (Some app_name)
           end
       | None => raise (Exception "AI extraction failed")
       end)
      (fun _ => ret None) in
  match answer with
  | Some app_name => ret app_name
  | None => ret (fallback_name request)
  end.

(** [user = g.get_user()] stands before the [try]. *)
Definition create_github_repo (env : Env) (github_username app_name : string)
  : M (string * string) :=
  let* _ := Agent.get_user env in
  try_except
    (let* source_repo :=
       Agent.create_repo env (app_name +:+ "-source") ("Source code for " +:+ app_name) in
     let* gitops_repo :=
       Agent.create_repo env (app_name +:+ "-gitops")
         ("GitOps configuration for " +:+ app_name) in
     ret (clone_url source_repo, clone_url gitops_repo))
    (fun _ =>
       ret ("https://github.com/" +:+ github_username +:+ "/" +:+ app_name +:+ "-source.git",
            "https://github.com/" +:+ github_username +:+ "/" +:+ app_name +:+ "-gitops.git")).

(** [cwd] is [os.getcwd()]. *)
Definition run_onboarding_flow (env : Env) (github_username cwd developer_request : string)
  : M bool :=
  let* app_name := extract_app_name_from_request env developer_request in
  let* urls := create_github_repo env github_username app_name in
  let source_repo_url := fst urls in
  let gitops_repo_url := snd urls in
  let template_path :=
    Str.join (Str.join (Str.join (Str.join cwd "..") "cnoe-stacks") "nodejs-template")
      "app-source" in
  let gitops_template_path :=
    Str.join (Str.join (Str.join cwd "..") "cnoe-stacks") "nodejs-gitops-template" in
  let* source_ok :=
    populate_repo_from_stack env source_repo_url template_path app_name
      ("NodeJS application for " +:+ app_name) in
  if negb source_ok then ret false
  else
    let* gitops_ok :=
      populate_repo_from_stack env gitops_repo_url gitops_template_path app_name
        ("GitOps configuration for " +:+ app_name) in
    if negb gitops_ok then ret false
    else
      let* deployed := create_argocd_application env app_name gitops_repo_url in
      if negb deployed then ret false else ret true.

(** The block run as a script: the exit status of the process.  An
    exception of the flow is not handled there. *)
Definition required_vars : list string :=
  ["GITHUB_TOKEN"; "GITHUB_USERNAME"; "OPENROUTER_API_KEY"].

Definition default_request : string :=
  "I need to deploy my new NodeJS service called inventory-api".

Definition main (argv : list string) (environ : gmap string string) (cwd : string)
    (env : Env) : M nat :=
  let missing_vars :=
    List.filter (fun var => String.eqb (Agent.getenv environ var EmptyString) EmptyString)
      required_vars in
  match missing_vars with
  | _ :: _ => ret 1
  | [] =>
      let developer_request :=
        match argv with
        | _ :: request :: _ => request
        | _ => default_request
        end in
      let* success :=
        run_onboarding_flow env (Agent.getenv environ "GITHUB_USERNAME" EmptyString) cwd
          developer_request in
      if success then ret 0 else ret 1
  end.

End GoldenPath.

(** ** Predicates of the specification *)

Module Spec.
Import Sys.

(** The name matches [^[a-z0-9-]+$]. *)
Definition dns_name (s : string) : bool :=
  negb (String.eqb s EmptyString) && Py.all_chars Re.lower_digit_hyphen s.

(** The name matches [^[a-z0-9_-]+$]. *)
Definition word_name (s : string) : bool :=
  negb (String.eqb s EmptyString)
  && Py.all_chars (fun c => Re.lower_digit_hyphen c || Ascii.eqb c "_"%char) s.

(** The URL ends with the repository name, up to the suffix [.git]. *)
Definition names_repo (repo_name url : string) : Prop :=
  exists base, url = base +:+ repo_name +:+ ".git".

(** A computation keeps the relation [R] between the world before it
    and the world after it. *)
Definition preserves {A : Type} (R : World -> World -> Prop) (m : M A) : Prop :=
  forall w, R w (snd (m w)).

(** A computation returns, and what it returns satisfies [P]. *)
Definition yields {A : Type} (m : M A) (P : A -> Prop) : Prop :=
  forall w, exists a, fst (m w) = Returns a /\ P a.

(** A relation between worlds that every step of a computation keeps:
    it is a preorder, recording a call keeps it, and so does writing a
    file or making a directory at a path of [ok_path]. *)
Record invariant (R : World -> World -> Prop) (ok_path : string -> Prop) : Prop := {
  inv_refl : forall w, R w w;
  inv_trans : forall a b c, R a b -> R b c -> R a c;
  inv_logged : forall c w, R w (logged c w);
  inv_write : forall p c, ok_path p -> preserves R (write_file p c);
  inv_mkdir : forall p, ok_path p -> preserves R (makedirs p)
}.

(** Whatever the world before, [Q] holds of the world after. *)
Definition establishes {A : Type} (Q : World -> Prop) (m : M A) : Prop :=
  forall w, Q (snd (m w)).

(** [Q] is not lost from the world before to the world after. *)
Definition keeps (Q : World -> Prop) (w w' : World) : Prop := Q w -> Q w'.

(** The external call [c] has been made. *)
Definition called (c : call) (w : World) : Prop := In c (trace w).

(** Outside the directory [d] the file system is the same. *)
Definition same_outside (d : string) (w w' : World) : Prop :=
  fs (erase d w') = fs (erase d w) /\ dirs (erase d w') = dirs (erase d w).

(** The text has [line] as one of its inner lines. *)
Definition has_line (text line : string) : Prop :=
  exists before after,
    text = before +:+ String "010"%char (line +:+ String "010"%char after).

(** The hosting API reports, for a repository, a clone URL that ends
    with the name of the repository. *)
Definition host_names_repos (env : Env) : Prop :=
  forall h n d r,
    (gh_create_repo env h n d = GhOk r -> names_repo n (clone_url r))
    /\ (gh_get_repo env h n = GhOk r -> names_repo n (clone_url r)).

(** The [RepositoryInfo] built from two repository objects. *)
Definition info_of (source gitops : Repo) : Agent.RepositoryInfo :=
  {| Agent.source_repo_url := clone_url source;
     Agent.gitops_repo_url := clone_url gitops;
     Agent.source_repo_id := repo_id source;
     Agent.gitops_repo_id := repo_id gitops |}.

(** The [RepositoryInfo] constructed when the lookup fails too. *)
Definition constructed_info (cfg : Agent.Config) (app_name : string) : Agent.RepositoryInfo :=
  {| Agent.source_repo_url :=
       "https://github.com/" +:+ Agent.github_username cfg +:+ "/" +:+ app_name
         +:+ "-source.git";
     Agent.gitops_repo_url :=
       "https://github.com/" +:+ Agent.github_username cfg +:+ "/" +:+ app_name
         +:+ "-gitops.git";
     Agent.source_repo_id := "unknown";
     Agent.gitops_repo_id := "unknown" |}.

(** The three ways [create_github_repo] comes to a [RepositoryInfo]:
    both repositories created, both looked up, or the URLs constructed. *)
Definition provisioned (cfg : Agent.Config) (env : Env) (app_name : string)
    (info : Agent.RepositoryInfo) : Prop :=
  (exists h1 h2 d1 d2 r1 r2,
      gh_create_repo env h1 (app_name +:+ "-source") d1 = GhOk r1
      /\ gh_create_repo env h2 (app_name +:+ "-gitops") d2 = GhOk r2
      /\ info = info_of r1 r2)
  \/ (exists h1 h2 r1 r2,
      gh_get_repo env h1 (app_name +:+ "-source") = GhOk r1
      /\ gh_get_repo env h2 (app_name +:+ "-gitops") = GhOk r2
      /\ info = info_of r1 r2)
  \/ info = constructed_info cfg app_name.

(** The result record of the flow. *)
Definition result (ok : bool) (app : option Agent.AppInfo)
    (info : option Agent.RepositoryInfo) (deployed : bool) (err : option string)
    (ts : string) : Agent.Result :=
  {| Agent.success := ok; Agent.app_info := app; Agent.repositories := info;
     Agent.argocd_created := deployed; Agent.error := err; Agent.timestamp := ts |}.

(** Nothing exists at [d] or below it. *)
Definition unused (d : string) (w : World) : Prop :=
  forall p, Str.under d p = true -> fs w !! p = None /\ p ∉ dirs w.

(** The directories and files of a walk have relative names. *)
Definition relative (l : listing) : Prop :=
  Forall (fun entry =>
            Str.is_abs (fst entry) = false
            /\ Forall (fun file => Str.is_abs (fst file) = false) (snd entry)) l.

(** Every subprocess exits with status 0. *)
Definition commands_succeed (env : Env) : Prop :=
  forall h argv, exists out err, exec env h argv = Exit 0 out err.

(** The destination paths [_copy_template_files] writes, in order. *)
Definition destinations (repo_path : string) (l : listing) : list string :=
  flat_map (fun entry =>
              map (fun file => Agent.dest_of repo_path (fst entry) (fst file)) (snd entry)) l.

(** What [_copy_template_files] writes for a file: the rendering of
    a template file, the source itself when the engine throws or the
    file is not a template. *)
Definition content_of (cfg : Agent.Config) (env : Env) (app : Agent.AppInfo)
    (file : string * string) : string :=
  if Agent._should_process_as_template (fst file)
  then match render env (snd file) (Agent.template_vars cfg app) with
       | Some rendered => rendered
       | None => snd file
       end
  else snd file.

(** The files [_copy_template_files] writes, with their contents, in order. *)
Definition written (cfg : Agent.Config) (env : Env) (app : Agent.AppInfo)
    (repo_path : string) (l : listing) : list (string * string) :=
  flat_map (fun entry =>
              map (fun file => (Agent.dest_of repo_path (fst entry) (fst file),
                                content_of cfg env app file)) (snd entry)) l.

(** The file system after the writes [l], made in order. *)
Definition put_all (l : list (string * string)) (m : gmap string string)
  : gmap string string :=
  fold_left (fun m kv => <[kv.1 := kv.2]> m) l m.

(** The request contains a recognizable "[kw] X": the first
    occurrence of the keyword [kw] (in any letter case) is followed by
    white space, an optional quote (when the pattern allows one) and the
    token [X], the longest run of characters of the class [word] there. *)
Definition recognizable (kw : string) (word : ascii -> bool) (quoted : bool)
    (request X : string) : Prop :=
  exists pre K ws q post,
    request = pre +:+ K +:+ ws +:+ q +:+ X +:+ post
    /\ Py.lower K = kw
    /\ Py.find kw (Py.lower request) = Some (String.length pre)
    /\ ws <> EmptyString /\ Py.all_chars Re.space ws = true
    /\ (q = EmptyString
        \/ (quoted = true /\ exists c, q = String c EmptyString /\ Re.quote c = true))
    /\ X <> EmptyString /\ Py.all_chars word X = true /\ Py.stops word post = true.

(** A DNS label, possibly empty: lower-case letters, digits and
    hyphens, no hyphen at either end and no two hyphens in a row. *)
Definition label (s : string) : bool :=
  Py.all_chars Re.lower_digit_hyphen s
  && negb (Py.startswith "-" s) && negb (Str.ends_in "-"%char s)
  && negb (Py.contains "--" s).

(** The variables [OnboardingAgent] requires. *)
Definition required_vars : list string :=
  ["GITHUB_TOKEN"; "GITHUB_USERNAME"; "OPENROUTER_API_KEY";
   "NODEJS_TEMPLATE_PATH"; "GITOPS_TEMPLATE_PATH"].

(** The variable is set to a non-empty value. *)
Definition is_set (environ : gmap string string) (var : string) : Prop :=
  exists value, environ !! var = Some value /\ value <> EmptyString.

(** The commands of [_commit_and_push], in order. *)
Definition commit_commands (repo_path : string) (app : Agent.AppInfo) : list (list string) :=
  map (fun args => "git" :: "-C" :: repo_path :: args)
    [ ["config"; "user.name"; "AI Onboarding Agent"];
      ["config"; "user.email"; "agent@example.com"];
      ["add"; "."];
      ["commit"; "-m";
       "Initial commit for " +:+ Agent.name app
         +:+ String "010"%char (String "010"%char (Agent.description app))];
      ["push"] ].

(** The commands of a populate: the clone, then those of the commit. *)
Definition populate_commands (repo_url repo_path : string) (app : Agent.AppInfo)
  : list (list string) :=
  ["git"; "clone"; repo_url; repo_path] :: commit_commands repo_path app.

(** The command exits with status 0 when run after the history [h]. *)
Definition exits_zero (env : Env) (h : list call) (argv : list string) : Prop :=
  exists out err, exec env h argv = Exit 0 out err.

(** The history after the first [j] commands of [cmds]. *)
Definition after (h : list call) (cmds : list (list string)) (j : nat) : list call :=
  (h ++ map Exec (firstn j cmds))%list.

(** The directories [_copy_template_files] makes, in order. *)
Definition made_dirs (repo_path : string) (l : listing) : list string :=
  flat_map (fun entry =>
              if String.eqb (fst entry) "." then []
              else [Str.join repo_path (fst entry)]) l.

(** Some white space character of [s] is directly followed by [kw],
    in any letter case. *)
Fixpoint after_space (kw s : string) : bool :=
  match s with
  | EmptyString => false
  | String c s' => (Py.is_space c && Py.startswith kw (Py.lower s')) || after_space kw s'
  end.

(** The text is empty or ends with a character that is not of the class. *)
Definition ends_clear (word : ascii -> bool) (pre : string) : Prop :=
  pre = EmptyString
  \/ exists p c, pre = p +:+ String c EmptyString /\ word c = false.

(** The request has a token [X] followed by white space and the first
    [kw] of the request, in any letter case; before [X] stands no
    character of the class. *)
Definition recognizable_before (kw : string) (word : ascii -> bool) (request X : string)
  : Prop :=
  exists pre ws K post,
    request = pre +:+ X +:+ ws +:+ K +:+ post
    /\ Py.lower K = kw
    /\ Py.find kw (Py.lower request)
       = Some (String.length pre + String.length X + String.length ws)
    /\ ends_clear word pre
    /\ X <> EmptyString /\ Py.all_chars word X = true
    /\ ws <> EmptyString /\ Py.all_chars Re.space ws = true.

(** [target_path] of the function-based variant for a file of a walk. *)
Definition golden_target (repo_name : string) (entry : string * list (string * string))
    (file : string * string) : string :=
  "/tmp/" +:+ repo_name +:+ "/"
    +:+ (if String.eqb (fst entry) "." then fst file else Str.join (fst entry) (fst file)).

(** The files the function-based variant writes when every file
    renders, with their contents, in order. *)
Definition golden_written (env : Env) (app_name description repo_name : string)
    (l : listing) : list (string * string) :=
  flat_map (fun entry =>
              map (fun file =>
                     (golden_target repo_name entry file,
                      match render env (snd file)
                              [("appName", app_name); ("description", description)] with
                      | Some rendered => rendered
                      | None => snd file
                      end)) (snd entry)) l.

End Spec.

(** ** Concrete environments *)

Module Demo.
Import Sys.

Fixpoint xs (n : nat) : string :=
  match n with
  | O => EmptyString
  | S k => String "x"%char (xs k)
  end.

Definition repo_at (path : string) : gh_reply :=
  GhOk {| clone_url := "https://github.com/dev/" +:+ path +:+ ".git";
          html_url := "https://github.com/dev/" +:+ path;
          repo_id := "1" |}.

(** A host that names the repository as asked. *)
Definition host (repo_name : string) : gh_reply := repo_at repo_name.

(** A host that replaces the spaces of a repository name by hyphens. *)
Fixpoint hyphenate (s : string) : string :=
  match s with
  | EmptyString => EmptyString
  | String c s' => String (if Ascii.eqb c " "%char then "-"%char else c) (hyphenate s')
  end.

Definition tidy_host (repo_name : string) : gh_reply := repo_at (hyphenate repo_name).

Definition templates (path : string) : option listing :=
  if String.eqb path "/templates/app"
  then Some [ (".", [("index.js", "hello {{appName}}"); ("logo.png", "PNG")]);
              ("k8s", [("deploy.yaml", "{{ broken")]) ]
  else if String.eqb path "/templates/gitops"
  then Some [ (".", [("app.yaml", "name: {{appName}}")]) ]
  else None.

(** An environment: the answer of the model, its parse, the host and
    the subprocesses are chosen; a template renders to itself followed
    by [!], except the one that is broken. *)
Definition env (reply : option string) (parsed : option json)
    (create : string -> gh_reply) (ex : list string -> proc) : Env :=
  {| llm := fun _ _ => reply;
     json_loads := fun _ => parsed;
     gh_user := fun _ => None;
     gh_create_repo := fun _ n _ => create n;
     gh_get_repo := fun _ n => create n;
     exec := fun _ argv => ex argv;
     kube_config := fun _ => None;
     tree := templates;
     render := fun src _ => if String.eqb src "{{ broken" then None else Some (src +:+ "!");
     tmpname := fun h => "/tmp/tmp" +:+ xs (List.length h);
     now := fun _ => "2024-01-01T00:00:00" |}.

(** The same environment with another hosting API. *)
Definition with_host (create get : string -> gh_reply) (e : Env) : Env :=
  {| llm := llm e; json_loads := json_loads e; gh_user := gh_user e;
     gh_create_repo := fun _ n _ => create n;
     gh_get_repo := fun _ n => get n;
     exec := exec e; kube_config := kube_config e; tree := tree e; render := render e;
     tmpname := tmpname e; now := now e |}.

Definition exists_already (repo_name : string) : gh_reply :=
  GhRaises (GithubException 422 "Repository creation failed.").

Definition not_found (repo_name : string) : gh_reply :=
  GhRaises (GithubException 404 "Not Found").

Definition ok (argv : list string) : proc := Exit 0 EmptyString EmptyString.

Definition kubectl_fails (argv : list string) : proc :=
  match argv with
  | "kubectl" :: _ => Exit 1 EmptyString "error: unable to connect to the server"
  | _ => Exit 0 EmptyString EmptyString
  end.

Definition clone_fails (argv : list string) : proc :=
  match argv with
  | "git" :: "clone" :: _ => Exit 128 EmptyString "fatal: repository not found"
  | _ => Exit 0 EmptyString EmptyString
  end.

Definition cfg : Agent.Config :=
  {| Agent.github_token := "token";
     Agent.github_username := "dev";
     Agent.openrouter_api_key := "key";
     Agent.nodejs_template_path := "/templates/app";
     Agent.gitops_template_path := "/templates/gitops";
     Agent.argocd_namespace := "argocd";
     Agent.argocd_project := "default" |}.

Definition w0 : World := {| trace := []; fs := ∅; dirs := ∅ |}.

Definition shop : Agent.AppInfo :=
  {| Agent.name := "shop"; Agent.description := "A shop"; Agent.language := "NodeJS";
     Agent.author := "AI Agent"; Agent.repository_url := EmptyString |}.

(** A process environment with every variable of both agents. *)
Definition environ : gmap string string :=
  list_to_map
    [ ("GITHUB_TOKEN", "token"); ("GITHUB_USERNAME", "dev"); ("OPENROUTER_API_KEY", "key");
      ("NODEJS_TEMPLATE_PATH", "/templates/app");
      ("GITOPS_TEMPLATE_PATH", "/templates/gitops") ].

Definition forbidden (repo_name : string) : gh_reply :=
  GhRaises (GithubException 403 "Forbidden").

(** The same environment with credentials the hosting API rejects. *)
Definition no_user (e : Env) : Env :=
  {| llm := llm e; json_loads := json_loads e;
     gh_user := fun _ => Some (GithubException 401 "Bad credentials");
     gh_create_repo := gh_create_repo e; gh_get_repo := gh_get_repo e;
     exec := exec e; kube_config := kube_config e; tree := tree e; render := render e;
     tmpname := tmpname e; now := now e |}.

(** The stacks where the function-based variant looks for them when
    run in [/work/agent]. *)
Definition stacks (path : string) : option listing :=
  if String.eqb path "/work/agent/../cnoe-stacks/nodejs-template/app-source"
  then Some [ (".", [("index.js", "hello {{appName}}")]) ]
  else if String.eqb path "/work/agent/../cnoe-stacks/nodejs-gitops-template"
  then Some [ (".", [("app.yaml", "name: {{appName}}")]) ]
  else None.

(** The same environment with other template trees. *)
Definition with_tree (t : string -> option listing) (e : Env) : Env :=
  {| llm := llm e; json_loads := json_loads e; gh_user := gh_user e;
     gh_create_repo := gh_create_repo e; gh_get_repo := gh_get_repo e;
     exec := exec e; kube_config := kube_config e; tree := t; render := render e;
     tmpname := tmpname e; now := now e |}.

End Demo.

(** * Properties *)

(** ** Strings and characters *)

#[local] Arguments String.append !s1 s2 : simpl nomatch.

Section StringFacts.

Lemma app_nil_r (s : string) : s +:+ EmptyString = s.
Proof. induction s as [|c s IH]; simpl; [reflexivity | now rewrite IH]. Qed.

Lemma app_assoc (a b c : string) : (a +:+ b) +:+ c = a +:+ (b +:+ c).
Proof. induction a as [|x a IH]; simpl; [reflexivity | now rewrite IH]. Qed.

Lemma length_app (a b : string) :
  String.length (a +:+ b) = String.length a + String.length b.
Proof. induction a as [|x a IH]; simpl; [reflexivity | now rewrite IH]. Qed.

Lemma take_app (a b : string) : Py.take (String.length a) (a +:+ b) = a.
Proof. induction a as [|x a IH]; simpl; [now destruct b | now rewrite IH]. Qed.

Lemma take_app_sub (a b : string) :
  Py.take (String.length (a +:+ b) - String.length b) (a +:+ b) = a.
Proof.
  rewrite length_app.
  replace (String.length a + String.length b - String.length b) with (String.length a) by lia.
  apply take_app.
Qed.

Lemma drop_app (a b : string) : Py.drop (String.length a) (a +:+ b) = b.
Proof. induction a as [|x a IH]; simpl; [now destruct b | exact IH]. Qed.

Lemma take_drop (n : nat) (s : string) : Py.take n s +:+ Py.drop n s = s.
Proof.
  revert s; induction n as [|n IH]; intros [|c s]; simpl; try reflexivity.
  now rewrite IH.
Qed.

Lemma lower_app (a b : string) : Py.lower (a +:+ b) = Py.lower a +:+ Py.lower b.
Proof. induction a as [|x a IH]; simpl; [reflexivity | now rewrite IH]. Qed.

Lemma lower_length (s : string) : String.length (Py.lower s) = String.length s.
Proof. induction s as [|c s IH]; simpl; [reflexivity | now rewrite IH]. Qed.

Lemma all_chars_app (p : ascii -> bool) (a b : string) :
  Py.all_chars p (a +:+ b) = Py.all_chars p a && Py.all_chars p b.
Proof.
  induction a as [|x a IH]; simpl; [reflexivity |].
  now rewrite IH, andb_assoc.
Qed.

Lemma all_chars_impl (p q : ascii -> bool) (s : string) :
  (forall c, p c = true -> q c = true) ->
  Py.all_chars p s = true -> Py.all_chars q s = true.
Proof.
  intros Hpq; induction s as [|c s IH]; simpl; [reflexivity |].
  intros H; apply andb_true_iff in H as [Hc Hs].
  now rewrite (Hpq _ Hc), IH.
Qed.

Lemma all_chars_and (p q : ascii -> bool) (s : string) :
  Py.all_chars p s = true -> Py.all_chars q s = true ->
  Py.all_chars (fun c => p c && q c) s = true.
Proof.
  induction s as [|c s IH]; simpl; [reflexivity |].
  intros H1 H2.
  apply andb_true_iff in H1 as [-> H1]; apply andb_true_iff in H2 as [-> H2].
  now rewrite IH.
Qed.

Lemma all_chars_lower (p : ascii -> bool) (s : string) :
  (forall c, p (Py.lower_char c) = p c) ->
  Py.all_chars p (Py.lower s) = Py.all_chars p s.
Proof.
  intros Hp; induction s as [|c s IH]; simpl; [reflexivity | now rewrite Hp, IH].
Qed.

Lemma startswith_app (p s : string) : Py.startswith p (p +:+ s) = true.
Proof.
  induction p as [|c p IH]; simpl; [reflexivity |].
  now rewrite Ascii.eqb_refl, IH.
Qed.

Lemma startswith_split (p s : string) :
  Py.startswith p s = true -> exists r, s = p +:+ r.
Proof.
  revert s; induction p as [|c p IH]; intros s H; simpl in *.
  - now exists s.
  - destruct s as [|x s]; [discriminate |].
    apply andb_true_iff in H as [Hc Hs].
    apply Ascii.eqb_eq in Hc as ->.
    destruct (IH _ Hs) as [r ->]. now exists r.
Qed.

Lemma startswith_trans (p q s : string) :
  Py.startswith p q = true -> Py.startswith q s = true -> Py.startswith p s = true.
Proof.
  intros H1 H2.
  destruct (startswith_split _ _ H1) as [r1 ->].
  destruct (startswith_split _ _ H2) as [r2 ->].
  rewrite app_assoc. apply startswith_app.
Qed.

(** Facts about single characters are checked on all 256 of them. *)
Ltac by_cases_on_char c :=
  destruct c as [[] [] [] [] [] [] [] []]; vm_compute; try reflexivity; try discriminate;
  auto.

Lemma lower_char_not_upper (c : ascii) : Py.is_upper (Py.lower_char c) = false.
Proof. by_cases_on_char c. Qed.

Lemma lower_char_idem (c : ascii) : Py.lower_char (Py.lower_char c) = Py.lower_char c.
Proof. by_cases_on_char c. Qed.

Lemma space_lower (c : ascii) : Py.is_space c = true -> Py.lower_char c = c.
Proof. by_cases_on_char c. Qed.

Lemma quote_lower (c : ascii) : Re.quote c = true -> Py.lower_char c = c.
Proof. by_cases_on_char c. Qed.

Lemma word_lower (c : ascii) :
  Re.alnum_hyphen_underscore (Py.lower_char c) = Re.alnum_hyphen_underscore c.
Proof. by_cases_on_char c. Qed.

Lemma word_not_space (c : ascii) :
  Re.alnum_hyphen_underscore c = true -> Re.space c = false.
Proof. by_cases_on_char c. Qed.

Lemma word_not_quote (c : ascii) :
  Re.alnum_hyphen_underscore c = true -> Re.quote c = false.
Proof. by_cases_on_char c. Qed.

Lemma quote_not_space (c : ascii) : Re.quote c = true -> Re.space c = false.
Proof. by_cases_on_char c. Qed.

Lemma alnum_is_word (c : ascii) :
  Re.alnum_hyphen c = true -> Re.alnum_hyphen_underscore c = true.
Proof. by_cases_on_char c. Qed.

Lemma alnum_lower (c : ascii) :
  Re.alnum_hyphen c = true -> Re.lower_digit_hyphen (Py.lower_char c) = true.
Proof. by_cases_on_char c. Qed.

Lemma word_lowered (c : ascii) :
  Re.alnum_hyphen_underscore c = true -> Py.is_upper c = false ->
  Re.lower_digit_hyphen c || Ascii.eqb c "_"%char = true.
Proof. by_cases_on_char c. Qed.

Lemma cls_ic_space (c : ascii) : Re.cls_match true Re.space c = Re.space c.
Proof. by_cases_on_char c. Qed.

Lemma cls_ic_alnum (c : ascii) : Re.cls_match true Re.alnum_hyphen c = Re.alnum_hyphen c.
Proof. by_cases_on_char c. Qed.

Lemma cls_cs (p : ascii -> bool) (c : ascii) : Re.cls_match false p c = p c.
Proof. unfold Re.cls_match. now rewrite orb_false_r. Qed.

End StringFacts.

(** ** The matcher *)

Section RegexFacts.

Import Re.

Variable ic : bool.

Lemma star_inv {R : Type} (p : ascii -> bool) (k : string -> option R) (s : string) (r : R) :
  star p k s = Some r ->
  exists mid rest, s = mid +:+ rest /\ Py.all_chars p mid = true /\ k rest = Some r.
Proof.
  induction s as [|c s IH]; simpl; intros H.
  - exists EmptyString, EmptyString. auto.
  - destruct (p c) eqn:Hc.
    + destruct (star p k s) as [r'|] eqn:Hs.
      * injection H as ->. destruct (IH eq_refl) as (mid & rest & -> & Hmid & Hk).
        exists (String c mid), rest. simpl. rewrite Hc. auto.
      * exists EmptyString, (String c s). auto.
    + exists EmptyString, (String c s). auto.
Qed.

(** A greedy repetition stops where the class stops, when the rest of
    the pattern matches there. *)
Lemma star_greedy {R : Type} (p : ascii -> bool) (k : string -> option R)
    (mid rest : string) (r : R) :
  Py.all_chars p mid = true -> Py.stops p rest = true -> k rest = Some r ->
  star p k (mid +:+ rest) = Some r.
Proof.
  intros Hmid Hstop Hk. induction mid as [|c mid IH]; simpl in *.
  - destruct rest as [|x rest]; simpl in *; [exact Hk |].
    apply negb_true_iff in Hstop. now rewrite Hstop.
  - apply andb_true_iff in Hmid as [Hc Hmid]. now rewrite Hc, (IH Hmid).
Qed.

Lemma run_plain (ts : list tok) (start cap s x : string) :
  plain ts = true -> run ic ts start cap s = Some x -> x = cap.
Proof.
  revert s; induction ts as [|t ts IH]; intros s Hp H; simpl in *.
  - congruence.
  - apply andb_true_iff in Hp as [Ht Hp].
    destruct t; try discriminate.
    + destruct s as [|y s]; [discriminate |].
      destruct (lit_match ic c y); [eauto | discriminate].
    + destruct s as [|y s]; [discriminate |].
      destruct (cls_match ic p y); [eauto | discriminate].
    + destruct s as [|y s]; [discriminate |].
      destruct (cls_match ic p y); [| discriminate].
      apply star_inv in H as (mid & rest & _ & _ & H). eauto.
    + destruct s as [|y s]; [eauto |].
      destruct (cls_match ic p y); [| eauto].
      destruct (run ic ts start cap s) eqn:E; [injection H as -> |]; eauto.
Qed.

(** What group 1 holds after a match of [pre ( [p]+ ) post]: a
    non-empty run of characters of the class, taken from the subject. *)
Lemma run_capture (pre post : list tok) (p : ascii -> bool) (start cap s x : string) :
  plain pre = true -> plain post = true ->
  run ic (pre ++ Open :: Plus p :: Close :: post) start cap s = Some x ->
  x <> EmptyString /\ Py.all_chars (cls_match ic p) x = true
  /\ exists a b, s = a +:+ x +:+ b.
Proof.
  intros Hpre Hpost. revert s.
  induction pre as [|t pre IH]; intros s H; simpl in H.
  - destruct s as [|c s]; [discriminate |].
    destruct (cls_match ic p c) eqn:Hc; [| discriminate].
    apply star_inv in H as (mid & rest & -> & Hmid & H).
    cbn [run] in H.
    apply run_plain in H; [| exact Hpost]. subst x.
    change (String c (mid +:+ rest)) with (String c mid +:+ rest).
    rewrite take_app_sub. repeat split.
    + discriminate.
    + simpl. now rewrite Hc, Hmid.
    + exists EmptyString, rest. reflexivity.
  - simpl in Hpre. apply andb_true_iff in Hpre as [Ht Hpre].
    specialize (IH Hpre).
    assert (Hstep : forall c s', run ic (pre ++ Open :: Plus p :: Close :: post) start cap s'
                       = Some x -> s = String c s' ->
              x <> EmptyString /\ Py.all_chars (cls_match ic p) x = true
              /\ exists a b, s = a +:+ x +:+ b).
    { intros c s' H' ->. destruct (IH _ H') as (Hx & Hall & a & b & ->).
      repeat split; auto. exists (String c a), b. reflexivity. }
    destruct t; try discriminate.
    + destruct s as [|y s]; [discriminate |].
      destruct (lit_match ic c y); [eauto | discriminate].
    + destruct s as [|y s]; [discriminate |].
      destruct (cls_match ic p0 y); [eauto | discriminate].
    + destruct s as [|y s]; [discriminate |].
      destruct (cls_match ic p0 y); [| discriminate].
      apply star_inv in H as (mid & rest & -> & _ & H).
      destruct (IH _ H) as (Hx & Hall & a & b & ->).
      repeat split; auto. exists (String y (mid +:+ a)), b.
      simpl. now rewrite app_assoc.
    + destruct s as [|y s]; [eauto |].
      destruct (cls_match ic p0 y); [| eauto].
      destruct (run ic (pre ++ Open :: Plus p :: Close :: post) start cap s) eqn:E.
      * injection H as ->. eauto.
      * eauto.
Qed.

Lemma search_inv (ts : list tok) (s x : string) :
  search ic ts s = Some x ->
  exists a b, s = a +:+ b /\ run ic ts EmptyString EmptyString b = Some x.
Proof.
  induction s as [|c s IH]; simpl; intros H.
  - destruct (run ic ts EmptyString EmptyString EmptyString) eqn:E; [| discriminate].
    exists EmptyString, EmptyString. split; [reflexivity | congruence].
  - destruct (run ic ts EmptyString EmptyString (String c s)) eqn:E.
    + exists EmptyString, (String c s). split; [reflexivity | congruence].
    + destruct (IH H) as (a & b & -> & Hb). exists (String c a), b. auto.
Qed.

(** The leftmost match wins. *)
Lemma search_at (ts : list tok) (a s x : string) :
  (forall i, i < String.length a ->
     run ic ts EmptyString EmptyString (Py.drop i (a +:+ s)) = None) ->
  run ic ts EmptyString EmptyString s = Some x ->
  search ic ts (a +:+ s) = Some x.
Proof.
  intros Hbefore Hhere. induction a as [|c a IH]; simpl.
  - destruct s; simpl; now rewrite Hhere.
  - assert (H0 := Hbefore 0 ltac:(simpl; lia)). simpl in H0. rewrite H0.
    apply IH. intros i Hi. apply (Hbefore (S i)). simpl; lia.
Qed.

Lemma search_none (ts : list tok) (s : string) :
  (forall i, run ic ts EmptyString EmptyString (Py.drop i s) = None) ->
  search ic ts s = None.
Proof.
  induction s as [|c s IH]; intros H; simpl.
  - assert (H0 := H 0). simpl in H0. now rewrite H0.
  - assert (H0 := H 0). simpl in H0. rewrite H0.
    apply IH. intros i. apply (H (S i)).
Qed.

Lemma first_match_inv (ps : list (list tok)) (s x : string) :
  first_match ic ps s = Some x -> exists p, In p ps /\ search ic p s = Some x.
Proof.
  induction ps as [|p ps IH]; simpl; [discriminate |].
  destruct (search ic p s) eqn:E.
  - intros [= ->]. eauto.
  - intros H. destruct (IH H) as (q & Hq & Hs). eauto.
Qed.

End RegexFacts.

(** ** Names produced by the extractors *)

Section Names.

Import Re.

Lemma all_chars_middle (p : ascii -> bool) (a x b : string) :
  Py.all_chars p (a +:+ x +:+ b) = true -> Py.all_chars p x = true.
Proof.
  rewrite !all_chars_app. intros H.
  apply andb_true_iff in H as [_ H]. now apply andb_true_iff in H as [H _].
Qed.

Lemma lower_has_no_upper (s : string) :
  Py.all_chars (fun c => negb (Py.is_upper c)) (Py.lower s) = true.
Proof.
  induction s as [|c s IH]; simpl; [reflexivity |].
  now rewrite lower_char_not_upper, IH.
Qed.

Lemma nonempty_eqb (x : string) : x <> EmptyString -> String.eqb x EmptyString = false.
Proof. intros H. now apply String.eqb_neq. Qed.

(** Every pattern of [OnboardingAgent._fallback_extraction] captures a
    non-empty run of [[a-zA-Z0-9_-]] out of the subject. *)
Lemma agent_pattern_capture (p : list tok) (s x : string) :
  In p Agent.name_patterns -> search false p s = Some x ->
  x <> EmptyString /\ Py.all_chars alnum_hyphen_underscore x = true
  /\ exists a b, s = a +:+ x +:+ b.
Proof.
  intros Hp Hs.
  apply search_inv in Hs as (a & b & -> & Hrun).
  assert (H : x <> EmptyString
              /\ Py.all_chars (cls_match false alnum_hyphen_underscore) x = true
              /\ exists a' b', b = a' +:+ x +:+ b').
  { simpl in Hp. destruct Hp as [<- | [<- | [<- | []]]].
    - apply (run_capture false (lits "called" ++ [Plus space; Opt quote])%list [Opt quote]
               _ _ _ _ _ eq_refl eq_refl Hrun).
    - apply (run_capture false (lits "named" ++ [Plus space; Opt quote])%list [Opt quote]
               _ _ _ _ _ eq_refl eq_refl Hrun).
    - apply (run_capture false [Cls quote] [Cls quote] _ _ _ _ _ eq_refl eq_refl Hrun). }
  destruct H as (Hx & Hall & a' & b' & ->).
  repeat split; auto.
  - erewrite <- all_chars_impl; [reflexivity | | exact Hall].
    intros c. now rewrite cls_cs.
  - exists (a +:+ a'), b'. now rewrite app_assoc.
Qed.

Lemma agent_fallback_name_word (request : string) :
  Spec.word_name (Agent.name (Agent._fallback_extraction request)) = true.
Proof.
  unfold Agent._fallback_extraction. cbv zeta. cbn [Agent.name].
  destruct (first_match false Agent.name_patterns (Py.lower request)) as [x|] eqn:E;
    [| reflexivity].
  apply first_match_inv in E as (p & Hp & Hs).
  destruct (agent_pattern_capture _ _ _ Hp Hs) as (Hx & Hall & a & b & Hsub).
  unfold Spec.word_name. rewrite (nonempty_eqb _ Hx). simpl.
  assert (Hlow : Py.all_chars (fun c => negb (Py.is_upper c)) x = true).
  { apply (all_chars_middle _ a x b). rewrite <- Hsub. apply lower_has_no_upper. }
  eapply all_chars_impl; [| exact (all_chars_and _ _ _ Hall Hlow)].
  intros c Hc. apply andb_true_iff in Hc as [Hw Hu].
  apply word_lowered; [exact Hw | now apply negb_true_iff].
Qed.

Lemma all_chars_keep (p : ascii -> bool) (s : string) :
  Py.all_chars p (Str.keep p s) = true.
Proof.
  induction s as [|c s IH]; simpl; [reflexivity |].
  destruct (p c) eqn:Hc; simpl; [now rewrite Hc, IH | exact IH].
Qed.

Lemma all_chars_squeeze (p : ascii -> bool) (c : ascii) (s : string) :
  Py.all_chars p s = true -> Py.all_chars p (Str.squeeze c s) = true.
Proof.
  induction s as [|x s IH]; [reflexivity |].
  intros H. simpl in H. apply andb_true_iff in H as [Hx Hs].
  cbn [Str.squeeze].
  destruct (Ascii.eqb x c).
  - destruct s as [|y s]; [simpl; now rewrite Hx |].
    destruct (Ascii.eqb y c); [now apply IH |].
    cbn [Py.all_chars]. now rewrite Hx, (IH Hs).
  - cbn [Py.all_chars]. now rewrite Hx, (IH Hs).
Qed.

Lemma all_chars_lstrip (p q : ascii -> bool) (s : string) :
  Py.all_chars p s = true -> Py.all_chars p (Py.lstrip q s) = true.
Proof.
  induction s as [|x s IH]; simpl; [reflexivity |].
  intros H. destruct (q x); [| exact H].
  apply andb_true_iff in H as [_ H]. now apply IH.
Qed.

Lemma all_chars_rstrip (p q : ascii -> bool) (s : string) :
  Py.all_chars p s = true -> Py.all_chars p (Py.rstrip q s) = true.
Proof.
  induction s as [|x s IH]; simpl; [reflexivity |].
  intros H. apply andb_true_iff in H as [Hx Hs]. specialize (IH Hs).
  destruct (Py.rstrip q s) as [|y r].
  - destruct (q x); simpl; [reflexivity | now rewrite Hx].
  - cbn [Py.all_chars] in *. now rewrite Hx, IH.
Qed.

Lemma clean_chars (content : string) :
  Py.all_chars lower_digit_hyphen (GoldenPath.clean content) = true.
Proof.
  unfold GoldenPath.clean, Py.strip.
  apply all_chars_rstrip, all_chars_lstrip, all_chars_squeeze, all_chars_keep.
Qed.

(** Every pattern of [extract_app_name_from_request] captures a
    non-empty run of [[a-zA-Z0-9-]]. *)
Lemma golden_pattern_capture (p : list tok) (s x : string) :
  In p GoldenPath.patterns -> search true p s = Some x ->
  x <> EmptyString /\ Py.all_chars alnum_hyphen x = true.
Proof.
  intros Hp Hs.
  apply search_inv in Hs as (a & b & -> & Hrun).
  assert (H : x <> EmptyString
              /\ Py.all_chars (cls_match true alnum_hyphen) x = true
              /\ exists a' b', b = a' +:+ x +:+ b').
  { simpl in Hp. destruct Hp as [<- | [<- | [<- | [<- | [<- | [<- | []]]]]]].
    - apply (run_capture true (lits "called" ++ [Plus space])%list []
               _ _ _ _ _ eq_refl eq_refl Hrun).
    - apply (run_capture true (lits "named" ++ [Plus space])%list []
               _ _ _ _ _ eq_refl eq_refl Hrun).
    - apply (run_capture true [] (Plus space :: lits "service")
               _ _ _ _ _ eq_refl eq_refl Hrun).
    - apply (run_capture true [] (Plus space :: lits "app")
               _ _ _ _ _ eq_refl eq_refl Hrun).
    - apply (run_capture true (lits "deploy" ++ [Plus space])%list []
               _ _ _ _ _ eq_refl eq_refl Hrun).
    - apply (run_capture true (lits "create" ++ [Plus space])%list []
               _ _ _ _ _ eq_refl eq_refl Hrun). }
  destruct H as (Hx & Hall & _). split; [exact Hx |].
  eapply all_chars_impl; [| exact Hall].
  intros c. now rewrite cls_ic_alnum.
Qed.

Lemma lower_nonempty (x : string) : x <> EmptyString -> Py.lower x <> EmptyString.
Proof. destruct x; [congruence | discriminate]. Qed.

Lemma all_chars_lowered (x : string) :
  Py.all_chars alnum_hyphen x = true ->
  Py.all_chars lower_digit_hyphen (Py.lower x) = true.
Proof.
  induction x as [|c x IH]; simpl; [reflexivity |].
  intros H. apply andb_true_iff in H as [Hc Hx].
  now rewrite (alnum_lower _ Hc), IH.
Qed.

Lemma golden_fallback_name_dns (request : string) :
  Spec.dns_name (GoldenPath.fallback_name request) = true.
Proof.
  unfold GoldenPath.fallback_name.
  destruct (first_match true GoldenPath.patterns request) as [x|] eqn:E; [| reflexivity].
  apply first_match_inv in E as (p & Hp & Hs).
  destruct (golden_pattern_capture _ _ _ Hp Hs) as (Hx & Hall).
  unfold Spec.dns_name.
  now rewrite (nonempty_eqb _ (lower_nonempty _ Hx)), all_chars_lowered.
Qed.

Lemma golden_extract_total (env : Sys.Env) (request : string) (w : Sys.World) :
  exists n,
    GoldenPath.extract_app_name_from_request env request w
    = (Sys.Returns n, Sys.logged (Sys.LlmCall (GoldenPath.prompt request)) w)
    /\ Spec.dns_name n = true.
Proof.
  unfold GoldenPath.extract_app_name_from_request, Sys.bind, Sys.try_except, Sys.ask,
    Sys.ret, Sys.raise.
  destruct (Sys.llm env (Sys.trace w) (GoldenPath.prompt request)) as [content|].
  - destruct (GoldenPath.clean content) as [|c n] eqn:E.
    + eexists; split; [reflexivity | apply golden_fallback_name_dns].
    + eexists; split; [reflexivity |].
      unfold Spec.dns_name. rewrite <- E, clean_chars. now rewrite E.
  - eexists; split; [reflexivity | apply golden_fallback_name_dns].
Qed.

End Names.

(** ** Recognition of "called X" and "named X" *)

Section Recognition.

Import Re.

Variable ic : bool.

Lemma run_lits (kw K : string) (ts : list tok) (start cap s : string) :
  folded ic K = folded ic kw ->
  run ic (lits kw ++ ts) start cap (K +:+ s) = run ic ts start cap s.
Proof.
  unfold Re.folded. revert K; induction kw as [|c kw IH]; intros K HK.
  - destruct K; [reflexivity | destruct ic; discriminate].
  - destruct K as [|y K]; [destruct ic; discriminate |].
    simpl. unfold lit_match.
    destruct ic; simpl in HK; injection HK as Hc HK.
    + rewrite Hc, Ascii.eqb_refl. now apply IH.
    + rewrite Hc, Ascii.eqb_refl. now apply IH.
Qed.

Lemma run_lits_inv (kw : string) (ts : list tok) (start cap s x : string) :
  run ic (lits kw ++ ts) start cap s = Some x ->
  Py.startswith (folded ic kw) (folded ic s) = true.
Proof.
  unfold Re.folded. revert s; induction kw as [|c kw IH]; intros s H.
  - now destruct ic.
  - destruct s as [|y s]; [discriminate |]. simpl in H.
    unfold lit_match in H. specialize (IH s).
    destruct ic; simpl.
    + destruct (Ascii.eqb (Py.lower_char c) (Py.lower_char y)); [auto | discriminate].
    + destruct (Ascii.eqb c y); [auto | discriminate].
Qed.

Lemma run_spaces (sp : ascii -> bool) (ts : list tok) (ws rest start cap r : string) :
  ws <> EmptyString -> Py.all_chars (cls_match ic sp) ws = true ->
  Py.stops (cls_match ic sp) rest = true ->
  run ic ts start cap rest = Some r ->
  run ic (Plus sp :: ts) start cap (ws +:+ rest) = Some r.
Proof.
  intros Hne Hall Hstop Hk. destruct ws as [|c ws]; [congruence |].
  simpl in *. apply andb_true_iff in Hall as [Hc Hall]. rewrite Hc.
  now apply star_greedy.
Qed.

Lemma run_token (word : ascii -> bool) (ts : list tok) (Y P start cap : string) :
  Y <> EmptyString -> Py.all_chars (cls_match ic word) Y = true ->
  Py.stops (cls_match ic word) P = true ->
  (forall cap', run ic ts (Y +:+ P) cap' P = Some cap') ->
  run ic (Open :: Plus word :: Close :: ts) start cap (Y +:+ P) = Some Y.
Proof.
  intros Hne Hall Hstop Hk.
  destruct Y as [|c Y]; [congruence |].
  simpl in Hall. apply andb_true_iff in Hall as [Hc Hall].
  change (run ic (Open :: Plus word :: Close :: ts) start cap (String c Y +:+ P))
    with (if cls_match ic word c
          then star (cls_match ic word)
                 (run ic (Close :: ts) (String c Y +:+ P) cap) (Y +:+ P)
          else None).
  rewrite Hc.
  apply star_greedy; [exact Hall | exact Hstop |].
  cbn [run]. rewrite Hk. now rewrite take_app_sub.
Qed.

Lemma run_opt_cons (q : ascii -> bool) (ts : list tok) (start cap : string) (c : ascii)
    (s : string) :
  run ic (Opt q :: ts) start cap (String c s)
  = if cls_match ic q c
    then match run ic ts start cap s with
         | Some r => Some r
         | None => run ic ts start cap (String c s)
         end
    else run ic ts start cap (String c s).
Proof. reflexivity. Qed.

Lemma run_opt_end (q : ascii -> bool) (start cap P : string) :
  run ic [Opt q] start cap P = Some cap.
Proof.
  destruct P as [|c P]; simpl; [reflexivity |].
  now destruct (cls_match ic q c).
Qed.

Lemma drop_lower (i : nat) (s : string) : Py.drop i (Py.lower s) = Py.lower (Py.drop i s).
Proof.
  revert s; induction i as [|i IH]; intros [|c s]; simpl; try reflexivity. apply IH.
Qed.

Lemma drop_folded (i : nat) (s : string) :
  Py.drop i (folded ic s) = folded ic (Py.drop i s).
Proof. unfold folded. destruct ic; [apply drop_lower | reflexivity]. Qed.

Lemma find_first (kw s : string) (n : nat) :
  Py.find kw s = Some n -> forall i, i < n -> Py.startswith kw (Py.drop i s) = false.
Proof.
  revert n; induction s as [|c s IH]; intros n H i Hi.
  - simpl in H. destruct (Py.startswith kw EmptyString); [injection H as <-; lia | discriminate].
  - cbn [Py.find] in H. destruct (Py.startswith kw (String c s)) eqn:E.
    + injection H as <-. lia.
    + destruct (Py.find kw s) as [m|]; [| discriminate]. injection H as <-.
      destruct i as [|i]; [exact E |]. simpl. apply (IH m eq_refl). lia.
Qed.

Lemma find_none (kw s : string) :
  Py.find kw s = None -> forall i, Py.startswith kw (Py.drop i s) = false.
Proof.
  induction s as [|c s IH]; intros H i.
  - simpl in H. destruct (Py.startswith kw EmptyString) eqn:E; [discriminate |].
    now destruct i.
  - cbn [Py.find] in H. destruct (Py.startswith kw (String c s)) eqn:E; [discriminate |].
    destruct (Py.find kw s) as [m|]; [discriminate |].
    destruct i as [|i]; [exact E |]. simpl. now apply IH.
Qed.

(** The first occurrence of the keyword is where the pattern matches. *)
Lemma search_keyword (kw : string) (ts : list tok) (a s x : string) :
  folded ic kw = kw ->
  Py.find kw (folded ic (a +:+ s)) = Some (String.length a) ->
  run ic (lits kw ++ ts) EmptyString EmptyString s = Some x ->
  search ic (lits kw ++ ts) (a +:+ s) = Some x.
Proof.
  intros Hkw Hfind Hrun. apply search_at; [| exact Hrun].
  intros i Hi.
  destruct (run ic (lits kw ++ ts) EmptyString EmptyString (Py.drop i (a +:+ s))) eqn:E;
    [| reflexivity].
  apply run_lits_inv in E. rewrite Hkw, <- drop_folded in E.
  now rewrite (find_first _ _ _ Hfind i Hi) in E.
Qed.

Lemma search_keyword_none (kw : string) (ts : list tok) (s : string) :
  folded ic kw = kw ->
  Py.find kw (folded ic s) = None ->
  search ic (lits kw ++ ts) s = None.
Proof.
  intros Hkw Hfind. apply search_none. intros i.
  destruct (run ic (lits kw ++ ts) EmptyString EmptyString (Py.drop i s)) eqn:E;
    [| reflexivity].
  apply run_lits_inv in E. rewrite Hkw, <- drop_folded in E.
  now rewrite (find_none _ _ Hfind i) in E.
Qed.

End Recognition.

Section Extractors.

Import Re.

Lemma lower_spaces (ws : string) : Py.all_chars space ws = true -> Py.lower ws = ws.
Proof.
  induction ws as [|c ws IH]; simpl; [reflexivity |].
  intros H. apply andb_true_iff in H as [Hc Hws].
  now rewrite (space_lower _ Hc), IH.
Qed.

Lemma stops_lower (p : ascii -> bool) (s : string) :
  (forall c, p (Py.lower_char c) = p c) -> Py.stops p (Py.lower s) = Py.stops p s.
Proof. intros Hp. destruct s; simpl; [reflexivity | now rewrite Hp]. Qed.

Lemma stops_head (p q : ascii -> bool) (X r : string) :
  X <> EmptyString -> Py.all_chars p X = true ->
  (forall c, p c = true -> q c = false) -> Py.stops q (X +:+ r) = true.
Proof.
  intros HX Hall Hpq. destruct X as [|c X]; [congruence |].
  simpl in *. apply andb_true_iff in Hall as [Hc _]. now rewrite (Hpq _ Hc).
Qed.

Lemma stops_ext (p q : ascii -> bool) (s : string) :
  (forall c, p c = q c) -> Py.stops p s = Py.stops q s.
Proof. intros H. destruct s; simpl; [reflexivity | now rewrite H]. Qed.

Lemma all_chars_ext (p q : ascii -> bool) (s : string) :
  (forall c, p c = q c) -> Py.all_chars p s = Py.all_chars q s.
Proof. intros H. induction s as [|c s IH]; simpl; [reflexivity | now rewrite H, IH]. Qed.

(** The token after the optional quote, as [OnboardingAgent] reads it. *)
Lemma agent_token (q Y P start cap : string) :
  (q = EmptyString \/ exists c, q = String c EmptyString /\ quote c = true) ->
  Y <> EmptyString -> Py.all_chars alnum_hyphen_underscore Y = true ->
  Py.stops alnum_hyphen_underscore P = true ->
  run false [Opt quote; Open; Plus alnum_hyphen_underscore; Close; Opt quote]
    start cap (q +:+ Y +:+ P) = Some Y.
Proof.
  intros Hq HY Hall Hstop.
  assert (Htok : forall st cp,
             run false [Open; Plus alnum_hyphen_underscore; Close; Opt quote] st cp (Y +:+ P)
             = Some Y).
  { intros st cp. apply run_token; auto.
    - now rewrite (all_chars_ext _ _ _ (cls_cs _)).
    - now rewrite (stops_ext _ _ _ (cls_cs _)).
    - intros cap'. apply run_opt_end. }
  destruct Hq as [-> | (c & -> & Hc)].
  - simpl (EmptyString +:+ _).
    destruct Y as [|y Y]; [congruence |].
    simpl in Hall. apply andb_true_iff in Hall as [Hy _].
    specialize (Htok start cap).
    change (String y Y +:+ P) with (String y (Y +:+ P)) in *.
    now rewrite run_opt_cons, cls_cs, (word_not_quote _ Hy).
  - change (String c EmptyString +:+ Y +:+ P) with (String c (Y +:+ P)).
    now rewrite run_opt_cons, cls_cs, Hc, (Htok start cap).
Qed.

Lemma agent_recognized (kw request X : string) :
  Spec.recognizable kw alnum_hyphen_underscore true request X ->
  search false (Agent.keyword_pattern kw) (Py.lower request) = Some (Py.lower X).
Proof.
  intros (pre & K & ws & q & post & -> & HK & Hfind & Hws & Hsp & Hq & HX & Hword & Hstop).
  rewrite lower_app. apply search_keyword.
  - reflexivity.
  - unfold folded. rewrite <- lower_app, lower_length. exact Hfind.
  - rewrite lower_app, HK. rewrite run_lits by reflexivity.
    rewrite lower_app, (lower_spaces _ Hsp), !lower_app.
    assert (HX' : Py.lower X <> EmptyString) by now apply lower_nonempty.
    assert (Hword' : Py.all_chars alnum_hyphen_underscore (Py.lower X) = true)
      by now rewrite (all_chars_lower _ _ word_lower).
    assert (Hq' : Py.lower q = EmptyString
                  \/ exists c, Py.lower q = String c EmptyString /\ quote c = true).
    { destruct Hq as [-> | (_ & c & -> & Hc)]; [now left | right].
      exists c. simpl. now rewrite (quote_lower _ Hc). }
    apply run_spaces.
    + exact Hws.
    + now rewrite (all_chars_ext _ _ _ (cls_cs _)).
    + rewrite (stops_ext _ _ _ (cls_cs _)).
      destruct Hq' as [-> | (c & -> & Hc)].
      * simpl (EmptyString +:+ _). apply (stops_head alnum_hyphen_underscore); auto.
        apply word_not_space.
      * simpl. now rewrite (quote_not_space _ Hc).
    + apply agent_token; auto.
      now rewrite (stops_lower _ _ word_lower).
Qed.

Lemma golden_recognized (kw request X : string) :
  Py.lower kw = kw ->
  Spec.recognizable kw alnum_hyphen false request X ->
  search true (GoldenPath.keyword_pattern kw) request = Some X.
Proof.
  intros Hkw (pre & K & ws & q & post & -> & HK & Hfind & Hws & Hsp & Hq & HX & Hword & Hstop).
  destruct Hq as [-> | (Hq & _)]; [| discriminate]. simpl (EmptyString +:+ _).
  apply search_keyword.
  - exact Hkw.
  - exact Hfind.
  - rewrite run_lits by (unfold folded; congruence).
    apply run_spaces.
    + exact Hws.
    + now rewrite (all_chars_ext _ _ _ cls_ic_space).
    + rewrite (stops_ext _ _ _ cls_ic_space).
      apply (stops_head alnum_hyphen); auto.
      intros c Hc. apply word_not_space. now apply alnum_is_word.
    + apply run_token; auto.
      * now rewrite (all_chars_ext _ _ _ cls_ic_alnum).
      * now rewrite (stops_ext _ _ _ cls_ic_alnum).
Qed.

End Extractors.

(** ** The fallback extractor *)

Section Fallback.

Import Re.

(** The loop over the patterns returns the capture of the first
    pattern of the list that matches. *)
Lemma first_match_first (ic : bool) (before after : list (list tok)) (p : list tok)
    (s x : string) :
  (forall q, In q before -> search ic q s = None) ->
  search ic p s = Some x ->
  first_match ic (before ++ p :: after) s = Some x.
Proof.
  intros Hbefore Hp. induction before as [|q before IH]; simpl.
  - now rewrite Hp.
  - rewrite (Hbefore q) by now left.
    apply IH. intros q' Hq'. apply Hbefore. now right.
Qed.

Lemma first_match_none (ic : bool) (ps : list (list tok)) (s : string) :
  (forall q, In q ps -> search ic q s = None) -> first_match ic ps s = None.
Proof.
  induction ps as [|q ps IH]; intros H; simpl; [reflexivity |].
  rewrite (H q) by now left. apply IH. intros q' Hq'. apply H. now right.
Qed.

End Fallback.

(** C4 (amended).  Both fallback extractors apply their ordered pattern
    list with the first matching pattern winning.  For a request whose
    first "called" is followed by a token X, the name is X in lower
    case; so it is for "named X" when the request has no "called".  X
    is the longest run of letters, digits and hyphens there, and in
    [OnboardingAgent] also of underscores, which are kept as they are.
    A request that no pattern of the list matches gets the default
    name, [new-app] in [OnboardingAgent] and [my-app] in the
    function-based variant. *)
Theorem C4_fallback_first_match :
  (forall request before p after x,
      Agent.name_patterns = (before ++ p :: after)%list ->
      (forall q, In q before -> Re.search false q (Py.lower request) = None) ->
      Re.search false p (Py.lower request) = Some x ->
      Agent.name (Agent._fallback_extraction request) = x)
  /\ (forall request X,
      Spec.recognizable "called" Re.alnum_hyphen_underscore true request X ->
      Agent.name (Agent._fallback_extraction request) = Py.lower X)
  /\ (forall request X,
      Py.find "called" (Py.lower request) = None ->
      Spec.recognizable "named" Re.alnum_hyphen_underscore true request X ->
      Agent.name (Agent._fallback_extraction request) = Py.lower X)
  /\ (forall request,
      (forall p, In p Agent.name_patterns -> Re.search false p (Py.lower request) = None) ->
      Agent.name (Agent._fallback_extraction request) = "new-app")
  /\ (forall request before p after x,
      GoldenPath.patterns = (before ++ p :: after)%list ->
      (forall q, In q before -> Re.search true q request = None) ->
      Re.search true p request = Some x ->
      GoldenPath.fallback_name request = Py.lower x)
  /\ (forall request X,
      Spec.recognizable "called" Re.alnum_hyphen false request X ->
      GoldenPath.fallback_name request = Py.lower X)
  /\ (forall request X,
      Py.find "called" (Py.lower request) = None ->
      Spec.recognizable "named" Re.alnum_hyphen false request X ->
      GoldenPath.fallback_name request = Py.lower X)
  /\ (forall request,
      (forall p, In p GoldenPath.patterns -> Re.search true p request = None) ->
      GoldenPath.fallback_name request = "my-app").
Proof.
  assert (A : forall request before p after x,
             Agent.name_patterns = (before ++ p :: after)%list ->
             (forall q, In q before -> Re.search false q (Py.lower request) = None) ->
             Re.search false p (Py.lower request) = Some x ->
             Agent.name (Agent._fallback_extraction request) = x).
  { intros request before p after x Hps Hbefore Hp.
    unfold Agent._fallback_extraction. cbv zeta. cbn [Agent.name].
    now rewrite Hps, (first_match_first _ _ _ _ _ _ Hbefore Hp). }
  assert (G : forall request before p after x,
             GoldenPath.patterns = (before ++ p :: after)%list ->
             (forall q, In q before -> Re.search true q request = None) ->
             Re.search true p request = Some x ->
             GoldenPath.fallback_name request = Py.lower x).
  { intros request before p after x Hps Hbefore Hp.
    unfold GoldenPath.fallback_name.
    now rewrite Hps, (first_match_first _ _ _ _ _ _ Hbefore Hp). }
  split; [exact A |]. split; [| split; [| split; [| split; [exact G | split; [| split]]]]].
  - intros request X HX.
    apply (A request [] (Agent.keyword_pattern "called")
             [Agent.keyword_pattern "named"; Agent.quoted_pattern]).
    + reflexivity.
    + intros q [].
    + now apply agent_recognized.
  - intros request X Hnone HX.
    apply (A request [Agent.keyword_pattern "called"] (Agent.keyword_pattern "named")
             [Agent.quoted_pattern]).
    + reflexivity.
    + intros q [<- | []]. now apply (search_keyword_none false).
    + now apply agent_recognized.
  - intros request Hnone.
    unfold Agent._fallback_extraction. cbv zeta. cbn [Agent.name].
    now rewrite (first_match_none _ _ _ Hnone).
  - intros request X HX.
    apply (G request [] (GoldenPath.keyword_pattern "called")
             (tl GoldenPath.patterns)).
    + reflexivity.
    + intros q [].
    + now apply golden_recognized.
  - intros request X Hnone HX.
    apply (G request [GoldenPath.keyword_pattern "called"]
             (GoldenPath.keyword_pattern "named") (tl (tl GoldenPath.patterns))).
    + reflexivity.
    + intros q [<- | []]. now apply (search_keyword_none true).
    + now apply golden_recognized.
  - intros request Hnone.
    unfold GoldenPath.fallback_name.
    now rewrite (first_match_none _ _ _ Hnone).
Qed.

Ltac recognize pre K ws q post :=
  exists pre, K, ws, q, post;
  split; [reflexivity |]; split; [reflexivity |]; split; [vm_compute; reflexivity |];
  split; [discriminate |]; split; [reflexivity |];
  split; [first [left; reflexivity
                | right; split; [reflexivity | eexists; split; reflexivity]] |];
  split; [discriminate |]; split; reflexivity.

Ltac no_match := intros ? H; simpl in H; intuition (subst; vm_compute; reflexivity).

Lemma C4_fallback_first_match_witness :
  (Spec.recognizable "called" Re.alnum_hyphen_underscore true
     "I need to deploy my new NodeJS service called inventory-api" "inventory-api"
   /\ Agent.name (Agent._fallback_extraction
                    "I need to deploy my new NodeJS service called inventory-api")
      = "inventory-api")
  /\ (Py.find "called" (Py.lower "Build a backend service Named 'Payment_Processor'") = None
      /\ Spec.recognizable "named" Re.alnum_hyphen_underscore true
           "Build a backend service Named 'Payment_Processor'" "Payment_Processor"
      /\ Agent.name (Agent._fallback_extraction
                       "Build a backend service Named 'Payment_Processor'")
         = "payment_processor")
  /\ ((forall p, In p Agent.name_patterns -> Re.search false p (Py.lower "Simple app") = None)
      /\ Agent.name (Agent._fallback_extraction "Simple app") = "new-app")
  /\ (Spec.recognizable "called" Re.alnum_hyphen false
        "I need a new NodeJS service called user-management" "user-management"
      /\ GoldenPath.fallback_name "I need a new NodeJS service called user-management"
         = "user-management")
  /\ (Py.find "called" (Py.lower "a tool NAMED Ledger_2") = None
      /\ Spec.recognizable "named" Re.alnum_hyphen false "a tool NAMED Ledger_2" "Ledger"
      /\ GoldenPath.fallback_name "a tool NAMED Ledger_2" = "ledger")
  /\ ((forall p, In p GoldenPath.patterns -> Re.search true p "hello" = None)
      /\ GoldenPath.fallback_name "hello" = "my-app")
  /\ Agent.name (Agent._fallback_extraction "is named x called y") = "y"
  /\ GoldenPath.fallback_name "Deploy my payment-processor app" = "payment-processor".
Proof.
  destruct C4_fallback_first_match as (A & A1 & A2 & A3 & G & G1 & G2 & G3).
  assert (R1 : Spec.recognizable "called" Re.alnum_hyphen_underscore true
                 "I need to deploy my new NodeJS service called inventory-api"
                 "inventory-api").
  { recognize "I need to deploy my new NodeJS service " "called" " " EmptyString EmptyString. }
  assert (R2 : Spec.recognizable "named" Re.alnum_hyphen_underscore true
                 "Build a backend service Named 'Payment_Processor'" "Payment_Processor").
  { recognize "Build a backend service " "Named" " " "'" "'". }
  assert (R3 : Spec.recognizable "called" Re.alnum_hyphen false
                 "I need a new NodeJS service called user-management" "user-management").
  { recognize "I need a new NodeJS service " "called" " " EmptyString EmptyString. }
  assert (R4 : Spec.recognizable "named" Re.alnum_hyphen false
                 "a tool NAMED Ledger_2" "Ledger").
  { recognize "a tool " "NAMED" " " EmptyString "_2". }
  assert (N1 : forall p, In p Agent.name_patterns ->
                         Re.search false p (Py.lower "Simple app") = None) by no_match.
  assert (N2 : forall p, In p GoldenPath.patterns -> Re.search true p "hello" = None)
    by no_match.
  split; [split; [exact R1 | exact (A1 _ _ R1)] |].
  split; [split; [reflexivity | split; [exact R2 | exact (A2 "Build a backend service Named 'Payment_Processor'" _ eq_refl R2)]] |].
  split; [split; [exact N1 | exact (A3 _ N1)] |].
  split; [split; [exact R3 | exact (G1 _ _ R3)] |].
  split; [split; [reflexivity | split; [exact R4 | exact (G2 "a tool NAMED Ledger_2" _ eq_refl R4)]] |].
  split; [split; [exact N2 | exact (G3 _ N2)] |].
  split.
  - apply (A "is named x called y" [] (Agent.keyword_pattern "called")
             [Agent.keyword_pattern "named"; Agent.quoted_pattern]);
      [reflexivity | intros q [] | vm_compute; reflexivity].
  - apply (G "Deploy my payment-processor app"
             [GoldenPath.keyword_pattern "called"; GoldenPath.keyword_pattern "named";
              GoldenPath.suffix_pattern "service"]
             (GoldenPath.suffix_pattern "app")
             [GoldenPath.keyword_pattern "deploy"; GoldenPath.keyword_pattern "create"]
             "payment-processor");
      [reflexivity | no_match | vm_compute; reflexivity].
Defined.

(** C4 as stated fails on [OnboardingAgent]: the token after "called"
    keeps its underscore, so the name is lowercased but not
    hyphen-normalized. *)
Lemma C4_counterexample :
  ~ (forall request X,
        Spec.recognizable "called" Re.alnum_hyphen_underscore true request X ->
        Agent.name (Agent._fallback_extraction request) = Py.lower X
        /\ Spec.dns_name (Agent.name (Agent._fallback_extraction request)) = true).
Proof.
  intros H.
  destruct (H "deploy a service called my_app" "my_app") as [_ Hdns].
  - recognize "deploy a service " "called" " " EmptyString EmptyString.
  - vm_compute in Hdns. discriminate.
Qed.

(** C6 (amended).  The fallback name of [OnboardingAgent] is a
    non-empty word over lower-case letters, digits, hyphens and
    underscores.  The name the function-based variant extracts, from the
    model's answer or from its patterns, always matches
    [^[a-z0-9-]+$], and that extractor never raises. *)
Theorem C6_extracted_names :
  (forall request,
      Spec.word_name (Agent.name (Agent._fallback_extraction request)) = true)
  /\ (forall env request w,
      exists n,
        GoldenPath.extract_app_name_from_request env request w
        = (Sys.Returns n, Sys.logged (Sys.LlmCall (GoldenPath.prompt request)) w)
        /\ Spec.dns_name n = true).
Proof.
  split; [exact agent_fallback_name_word | exact golden_extract_total].
Qed.

(** C6 as stated fails on [OnboardingAgent]: an underscore of the
    request reaches the name. *)
Lemma C6_counterexample :
  Spec.dns_name (Agent.name (Agent._fallback_extraction "create an app named data_store"))
  = false.
Proof. vm_compute. reflexivity. Qed.

(** ** The intent extractor of [OnboardingAgent] *)

(** C5 (amended).  [extract_app_info] never raises and always returns
    an [AppInfo], after exactly one call of the model.  When the call
    fails, the answer is not JSON, or the JSON value is not an object,
    the result is that of the regex fallback.  When the answer is an
    object, each member that is missing takes its own default
    ([new-app], a fixed description, [NodeJS], [AI Agent]); the regex
    fallback is not consulted. *)
Theorem C5_extract_never_raises :
  forall env request w,
    Agent.extract_app_info env request w
    = (Sys.Returns
         match Sys.llm env (Sys.trace w) (Agent.prompt request) with
         | Some response =>
             match Sys.json_loads env (Py.strip Py.is_space response) with
             | Some (Sys.JObject app_data) =>
                 {| Agent.name := Agent.get app_data "name" "new-app";
                    Agent.description :=
                      Agent.get app_data "description" "New application created by AI agent";
                    Agent.language := Agent.get app_data "language" "NodeJS";
                    Agent.author := Agent.get app_data "author" "AI Agent";
                    Agent.repository_url := EmptyString |}
             | _ => Agent._fallback_extraction request
             end
         | None => Agent._fallback_extraction request
         end,
       Sys.logged (Sys.LlmCall (Agent.prompt request)) w).
Proof.
  intros env request w.
  unfold Agent.extract_app_info, Agent._call_openrouter_api, Sys.try_except, Sys.bind,
    Sys.ask, Sys.ret, Sys.raise.
  destruct (Sys.llm env (Sys.trace w) (Agent.prompt request)) as [response|];
    [| reflexivity].
  now destruct (Sys.json_loads env (Py.strip Py.is_space response)) as [[app_data|]|].
Qed.

(** C5 as stated fails: an object without the requested members does
    not send the extractor to the regex fallback. *)
Lemma C5_counterexample :
  let env := Demo.env (Some "{}") (Some (Sys.JObject [])) Demo.host Demo.ok in
  let request := "deploy a service called shop" in
  Agent.name (Agent._fallback_extraction request) = "shop"
  /\ exists app w',
      Agent.extract_app_info env request Demo.w0 = (Sys.Returns app, w')
      /\ Agent.name app = "new-app"
      /\ app <> Agent._fallback_extraction request.
Proof.
  split; [vm_compute; reflexivity |].
  eexists _, _. split; [vm_compute; reflexivity |].
  split; [reflexivity | discriminate].
Qed.

(** ** The repository provisioner *)

Section Provisioner.

Import Sys Agent.

Lemma get_existing_paths cfg env app_name w info w' :
  _get_existing_repositories cfg env app_name w = (Returns info, w') ->
  (exists h1 h2 r1 r2,
      gh_get_repo env h1 (app_name +:+ "-source") = GhOk r1
      /\ gh_get_repo env h2 (app_name +:+ "-gitops") = GhOk r2
      /\ info = Spec.info_of r1 r2)
  \/ info = Spec.constructed_info cfg app_name.
Proof.
  cbv beta iota zeta delta [_get_existing_repositories try_except_github bind get_user
                               get_repo ask ret raise].
  intros H. repeat (case_match; simplify_eq; cbv beta iota zeta in * ); try (now right).
  left. eexists _, _, _, _. eauto.
Qed.

Lemma create_github_repo_paths cfg env app w info w' :
  create_github_repo cfg env app w = (Returns info, w') ->
  Spec.provisioned cfg env (name app) info.
Proof.
  cbv beta iota zeta delta [create_github_repo try_except_github bind get_user create_repo
                               ask ret raise].
  intros H. unfold Spec.provisioned.
  repeat (case_match; simplify_eq; cbv beta iota zeta in * );
    try (right; eapply get_existing_paths; eassumption);
    try discriminate.
  left. eexists _, _, _, _, _, _. eauto.
Qed.

Lemma names_constructed (base n suffix : string) :
  Spec.names_repo (n +:+ suffix) (base +:+ n +:+ suffix +:+ ".git").
Proof. exists base. now rewrite app_assoc. Qed.

End Provisioner.

(** C3 (amended).  A [RepositoryInfo] comes from one of three paths:
    the two repositories were created under the names [<name>-source]
    and [<name>-gitops], or they were looked up under these names, or
    the URLs were constructed.  The constructed URLs are
    [https://github.com/<username>/<name>-source.git] and
    [...-gitops.git].  On the other two paths the URLs are the clone
    URLs the hosting API reports; they end with [<name>-source] and
    [<name>-gitops], up to [.git], provided the API reports for a
    repository a clone URL that ends with its name. *)
Theorem C3_repository_urls :
  forall cfg env app w info w',
    Agent.create_github_repo cfg env app w = (Sys.Returns info, w') ->
    Spec.provisioned cfg env (Agent.name app) info
    /\ (info = Spec.constructed_info cfg (Agent.name app) \/ Spec.host_names_repos env ->
        Spec.names_repo (Agent.name app +:+ "-source") (Agent.source_repo_url info)
        /\ Spec.names_repo (Agent.name app +:+ "-gitops") (Agent.gitops_repo_url info)).
Proof.
  intros cfg env app w info w' H.
  pose proof (create_github_repo_paths _ _ _ _ _ _ H) as Hp.
  split; [exact Hp |].
  assert (Hc : info = Spec.constructed_info cfg (Agent.name app) ->
               Spec.names_repo (Agent.name app +:+ "-source") (Agent.source_repo_url info)
               /\ Spec.names_repo (Agent.name app +:+ "-gitops")
                    (Agent.gitops_repo_url info)).
  { intros ->. split; simpl.
    - exists ("https://github.com/" +:+ Agent.github_username cfg +:+ "/").
      now rewrite !app_assoc.
    - exists ("https://github.com/" +:+ Agent.github_username cfg +:+ "/").
      now rewrite !app_assoc. }
  intros [Hi | Hhost]; [now apply Hc |].
  destruct Hp as [(h1 & h2 & d1 & d2 & r1 & r2 & H1 & H2 & ->)
                 | [(h1 & h2 & r1 & r2 & H1 & H2 & ->) | Hi]].
  - split; simpl.
    + exact (proj1 (Hhost h1 _ d1 r1) H1).
    + exact (proj1 (Hhost h2 _ d2 r2) H2).
  - split; simpl.
    + exact (proj2 (Hhost h1 _ EmptyString r1) H1).
    + exact (proj2 (Hhost h2 _ EmptyString r2) H2).
  - now apply Hc.
Qed.

Lemma demo_host_names_repos (e : Sys.Env) (create get : string -> Sys.gh_reply) :
  (forall n, create n = Demo.host n \/ exists e', create n = Sys.GhRaises e') ->
  (forall n, get n = Demo.host n \/ exists e', get n = Sys.GhRaises e') ->
  Spec.host_names_repos (Demo.with_host create get e).
Proof.
  intros Hc Hg h n d r. simpl. split; intros H.
  - destruct (Hc n) as [E | (e' & E)]; rewrite E in H; [| discriminate].
    injection H as <-. now exists "https://github.com/dev/".
  - destruct (Hg n) as [E | (e' & E)]; rewrite E in H; [| discriminate].
    injection H as <-. now exists "https://github.com/dev/".
Defined.

Lemma C3_repository_urls_witness :
  let created := Demo.with_host Demo.host Demo.host (Demo.env None None Demo.host Demo.ok) in
  let found :=
    Demo.with_host Demo.exists_already Demo.host (Demo.env None None Demo.host Demo.ok) in
  let neither :=
    Demo.with_host Demo.exists_already Demo.not_found
      (Demo.env None None Demo.host Demo.ok) in
  (Spec.host_names_repos created
   /\ Spec.names_repo "shop-source" "https://github.com/dev/shop-source.git"
   /\ Spec.names_repo "shop-gitops" "https://github.com/dev/shop-gitops.git")
  /\ (Spec.host_names_repos found
      /\ Spec.names_repo "shop-source" "https://github.com/dev/shop-source.git"
      /\ Spec.names_repo "shop-gitops" "https://github.com/dev/shop-gitops.git")
  /\ (fst (Agent.create_github_repo Demo.cfg neither Demo.shop Demo.w0)
      = Sys.Returns (Spec.constructed_info Demo.cfg "shop")
      /\ Spec.names_repo "shop-source" "https://github.com/dev/shop-source.git"
      /\ Spec.names_repo "shop-gitops" "https://github.com/dev/shop-gitops.git").
Proof.
  intros created found neither.
  assert (H1 : Spec.host_names_repos created).
  { apply demo_host_names_repos; intros n; now left. }
  assert (H2 : Spec.host_names_repos found).
  { apply demo_host_names_repos; intros n; [right | left]; eauto. }
  split; [| split].
  - split; [exact H1 |].
    exact (proj2 (C3_repository_urls Demo.cfg created Demo.shop Demo.w0 _ _ eq_refl)
             (or_intror H1)).
  - split; [exact H2 |].
    exact (proj2 (C3_repository_urls Demo.cfg found Demo.shop Demo.w0 _ _ eq_refl)
             (or_intror H2)).
  - split; [reflexivity |].
    exact (proj2 (C3_repository_urls Demo.cfg neither Demo.shop Demo.w0 _ _ eq_refl)
             (or_introl eq_refl)).
Defined.

(** C3 as stated fails on the creation path: the URL is the one the
    hosting API reports, and an API that tidies the name it was given
    reports a URL without [<name>-source]. *)
Lemma C3_counterexample :
  let env := Demo.env None None Demo.tidy_host Demo.ok in
  let app := {| Agent.name := "my shop"; Agent.description := "A shop";
                Agent.language := "NodeJS"; Agent.author := "AI Agent";
                Agent.repository_url := EmptyString |} in
  exists info w',
    Agent.create_github_repo Demo.cfg env app Demo.w0 = (Sys.Returns info, w')
    /\ Agent.source_repo_url info = "https://github.com/dev/my-shop-source.git"
    /\ Py.contains (Agent.name app +:+ "-source") (Agent.source_repo_url info) = false
    /\ Py.contains (Agent.name app +:+ "-gitops") (Agent.gitops_repo_url info) = false.
Proof.
  eexists _, _. split; [vm_compute; reflexivity |].
  repeat split; vm_compute; reflexivity.
Qed.

(** ** The deployment manifest *)

Lemma concat_lines_app (l1 l2 : list string) :
  l1 <> [] -> l2 <> [] ->
  Str.concat_lines (l1 ++ l2)
  = Str.concat_lines l1 +:+ String "010"%char (Str.concat_lines l2).
Proof.
  intros H1 H2. induction l1 as [|x l1 IH]; [congruence |].
  destruct l1 as [|y l1].
  - destruct l2; [congruence | reflexivity].
  - change (Str.concat_lines ((x :: y :: l1) ++ l2))
      with (x +:+ String "010"%char (Str.concat_lines ((y :: l1) ++ l2))).
    rewrite IH by discriminate.
    change (Str.concat_lines (x :: y :: l1))
      with (x +:+ String "010"%char (Str.concat_lines (y :: l1))).
    now rewrite app_assoc.
Qed.

Lemma has_line_lines (before : list string) (line : string) (after : list string) :
  before <> [] -> after <> [] ->
  Spec.has_line (Str.concat_lines (before ++ line :: after)) line.
Proof.
  intros H1 H2. exists (Str.concat_lines before), (Str.concat_lines after).
  rewrite concat_lines_app by (auto; discriminate).
  destruct after; [congruence | reflexivity].
Qed.

Lemma has_line_app (text line tail : string) :
  Spec.has_line text line -> Spec.has_line (text +:+ tail) line.
Proof.
  intros (before & after & ->). exists before, (after +:+ tail).
  rewrite app_assoc. simpl. now rewrite app_assoc.
Qed.

(** C9 (amended).  The manifest of [OnboardingAgent] holds the
    gitops URL exactly as passed in, as [repoURL] under [spec.source],
    and the application name exactly as given, as [name] under
    [metadata] and as the [app] label.  The manifest of the
    function-based variant holds the URL and the name in the same two
    places and has no labels. *)
Theorem C9_manifest_embeds :
  (forall cfg app url,
      let lines := Agent.manifest_lines cfg app url in
      let manifest := Agent._generate_argocd_manifest cfg app url in
      manifest = Str.concat_lines lines
      /\ lines !! 2 = Some "metadata:"
      /\ lines !! 3 = Some ("  name: " +:+ Agent.name app)
      /\ lines !! 5 = Some "  labels:"
      /\ lines !! 6 = Some ("    app: " +:+ Agent.name app)
      /\ lines !! 8 = Some "spec:"
      /\ lines !! 10 = Some "  source:"
      /\ lines !! 11 = Some ("    repoURL: " +:+ url)
      /\ Spec.has_line manifest ("  name: " +:+ Agent.name app)
      /\ Spec.has_line manifest ("    app: " +:+ Agent.name app)
      /\ Spec.has_line manifest ("    repoURL: " +:+ url))
  /\ (forall app_name url,
      let lines := GoldenPath.manifest_lines app_name url in
      let manifest := GoldenPath.app_manifest app_name url in
      manifest = Str.concat_lines lines +:+ GoldenPath.newline
      /\ lines !! 2 = Some "metadata:"
      /\ lines !! 3 = Some ("  name: " +:+ app_name)
      /\ lines !! 5 = Some "spec:"
      /\ lines !! 7 = Some "  source:"
      /\ lines !! 8 = Some ("    repoURL: " +:+ url)
      /\ Spec.has_line manifest ("  name: " +:+ app_name)
      /\ Spec.has_line manifest ("    repoURL: " +:+ url)
      /\ Forall (fun l => Py.startswith "  labels" l = false
                          /\ Py.startswith "    app:" l = false) lines).
Proof.
  split.
  - intros cfg app url lines manifest. subst lines manifest.
    repeat (split; [reflexivity |]).
    unfold Agent._generate_argocd_manifest.
    split; [| split].
    + now apply (has_line_lines (firstn 3 (Agent.manifest_lines cfg app url)) _
                   (skipn 4 (Agent.manifest_lines cfg app url))).
    + now apply (has_line_lines (firstn 6 (Agent.manifest_lines cfg app url)) _
                   (skipn 7 (Agent.manifest_lines cfg app url))).
    + now apply (has_line_lines (firstn 11 (Agent.manifest_lines cfg app url)) _
                   (skipn 12 (Agent.manifest_lines cfg app url))).
  - intros app_name url lines manifest. subst lines manifest.
    repeat (split; [reflexivity |]).
    unfold GoldenPath.app_manifest.
    split; [| split].
    + apply has_line_app.
      now apply (has_line_lines (firstn 3 (GoldenPath.manifest_lines app_name url)) _
                   (skipn 4 (GoldenPath.manifest_lines app_name url))).
    + apply has_line_app.
      now apply (has_line_lines (firstn 8 (GoldenPath.manifest_lines app_name url)) _
                   (skipn 9 (GoldenPath.manifest_lines app_name url))).
    + unfold GoldenPath.manifest_lines. repeat constructor.
Qed.

Lemma C9_counterexample :
  ~ In "    app: shop"
      (GoldenPath.manifest_lines "shop" "https://github.com/dev/shop-gitops.git")
  /\ Py.contains "app: shop"
       (GoldenPath.app_manifest "shop" "https://github.com/dev/shop-gitops.git") = false
  /\ Py.contains "labels"
       (GoldenPath.app_manifest "shop" "https://github.com/dev/shop-gitops.git") = false.
Proof.
  split; [| split; vm_compute; reflexivity].
  simpl. intuition discriminate.
Qed.

(** C10.  In both variants the destination of the manifest is the
    constant server [https://kubernetes.default.svc] and the constant
    namespace [default], whatever the application, the URL and the
    configuration.  In [OnboardingAgent] the configured ArgoCD
    namespace changes the line [namespace] under [metadata] and no
    other line; the function-based variant has no such setting. *)
Theorem C10_destination_is_fixed :
  (forall cfg app url,
      let lines := Agent.manifest_lines cfg app url in
      lines !! 14 = Some "  destination:"
      /\ lines !! 15 = Some "    server: https://kubernetes.default.svc"
      /\ lines !! 16 = Some "    namespace: default"
      /\ lines !! 17 = Some "  syncPolicy:"
      /\ lines !! 2 = Some "metadata:"
      /\ lines !! 4 = Some ("  namespace: " +:+ Agent.argocd_namespace cfg))
  /\ (forall cfg ns app url,
      Agent.manifest_lines (Agent.set_argocd_namespace cfg ns) app url
      = <[4 := "  namespace: " +:+ ns]> (Agent.manifest_lines cfg app url))
  /\ (forall app_name url,
      let lines := GoldenPath.manifest_lines app_name url in
      lines !! 11 = Some "  destination:"
      /\ lines !! 12 = Some "    server: https://kubernetes.default.svc"
      /\ lines !! 13 = Some "    namespace: default"
      /\ lines !! 14 = Some "  syncPolicy:"
      /\ lines !! 4 = Some "  namespace: argocd").
Proof.
  split; [| split].
  - intros cfg app url lines. subst lines. repeat split.
  - intros cfg ns app url. reflexivity.
  - intros app_name url lines. subst lines. repeat split.
Qed.

(** ** Relations kept by the computations *)

Section Preserve.

Import Sys Spec Agent.

Variable R : World -> World -> Prop.
Variable ok_path : string -> Prop.
Hypothesis HR : invariant R ok_path.

Let R_refl := inv_refl R ok_path HR.
Let R_trans := inv_trans R ok_path HR.
Let R_logged := inv_logged R ok_path HR.
Let R_write := inv_write R ok_path HR.
Let R_mkdir := inv_mkdir R ok_path HR.

Lemma preserves_ret {A : Type} (a : A) : preserves R (ret a).
Proof. intros w. apply R_refl. Qed.

Lemma preserves_raise {A : Type} (e : exn) : preserves R (@raise A e).
Proof. intros w. apply R_refl. Qed.

Lemma preserves_bind {A B : Type} (m : M A) (k : A -> M B) :
  preserves R m -> (forall a, preserves R (k a)) -> preserves R (bind m k).
Proof.
  intros Hm Hk w. unfold bind. specialize (Hm w).
  destruct (m w) as [[a|e] w1]; simpl in *; [| exact Hm].
  exact (R_trans _ _ _ Hm (Hk a w1)).
Qed.

Lemma preserves_try_except {A : Type} (m : M A) (h : exn -> M A) :
  preserves R m -> (forall e, preserves R (h e)) -> preserves R (try_except m h).
Proof.
  intros Hm Hh w. unfold try_except. specialize (Hm w).
  destruct (m w) as [[a|e] w1]; simpl in *; [exact Hm |].
  exact (R_trans _ _ _ Hm (Hh e w1)).
Qed.

Lemma preserves_try_except_process {A : Type} (m h : M A) :
  preserves R m -> preserves R h -> preserves R (try_except_process m h).
Proof.
  intros Hm Hh w. unfold try_except_process. specialize (Hm w).
  destruct (m w) as [[a|[]] w1]; simpl in *; try exact Hm.
  exact (R_trans _ _ _ Hm (Hh w1)).
Qed.

Lemma preserves_try_except_github {A : Type} (m : M A) (h : nat -> string -> M A) :
  preserves R m -> (forall st msg, preserves R (h st msg)) ->
  preserves R (try_except_github m h).
Proof.
  intros Hm Hh w. unfold try_except_github. specialize (Hm w).
  destruct (m w) as [[a|[]] w1]; simpl in *; try exact Hm.
  exact (R_trans _ _ _ Hm (Hh _ _ w1)).
Qed.

Lemma preserves_finally {A : Type} (m : M A) (c : M unit) :
  preserves R m -> preserves R c -> preserves R (finally m c).
Proof.
  intros Hm Hc w. unfold finally. specialize (Hm w).
  destruct (m w) as [r w1]. specialize (Hc w1).
  destruct (c w1) as [[[]|e] w2]; simpl in *; exact (R_trans _ _ _ Hm Hc).
Qed.

Lemma preserves_for_each {A : Type} (l : list A) (f : A -> M unit) :
  (forall x, In x l -> preserves R (f x)) -> preserves R (for_each l f).
Proof.
  induction l as [|x l IH]; intros Hf; simpl.
  - apply preserves_ret.
  - apply preserves_bind; [apply Hf; now left |].
    intros _. apply IH. intros y Hy. apply Hf. now right.
Qed.

Lemma preserves_ask {B : Type} (c : call) (oracle : list call -> B) :
  preserves R (ask c oracle).
Proof. intros w. apply R_logged. Qed.

Lemma preserves_subprocess_run (env : Env) (argv : list string) (check : bool) :
  preserves R (subprocess_run env argv check).
Proof.
  unfold subprocess_run. apply preserves_bind; [apply preserves_ask |].
  intros [[|n] out err | msg]; try destruct check;
    first [apply preserves_ret | apply preserves_raise].
Qed.

Lemma preserves_git (env : Env) (repo_path : string) (args : list string) :
  preserves R (git env repo_path args).
Proof.
  unfold git. apply preserves_bind; [apply preserves_subprocess_run |].
  intros _. apply preserves_ret.
Qed.

Lemma preserves_commit_and_push (env : Env) (repo_path : string) (app : AppInfo) :
  preserves R (_commit_and_push env repo_path app).
Proof.
  unfold _commit_and_push.
  repeat (apply preserves_bind; [apply preserves_git | intros _]).
  apply preserves_git.
Qed.

Lemma preserves_process_template_file cfg env src dest app :
  ok_path dest -> preserves R (_process_template_file cfg env src dest app).
Proof.
  intros Hd. unfold _process_template_file. apply preserves_try_except.
  - destruct (render env src (template_vars cfg app));
      [now apply R_write | apply preserves_raise].
  - intros _. now apply R_write.
Qed.

Lemma preserves_copy_template_files cfg env template_path repo_path app :
  (forall entry, In entry (walk env template_path) ->
     ok_path (Str.join repo_path (fst entry))
     /\ forall file, In file (snd entry) ->
          ok_path (dest_of repo_path (fst entry) (fst file))) ->
  preserves R (_copy_template_files cfg env template_path repo_path app).
Proof.
  intros Hok. unfold _copy_template_files.
  apply preserves_for_each. intros entry Hentry.
  destruct (Hok entry Hentry) as [Hdir Hfiles].
  apply preserves_bind.
  - destruct (String.eqb (fst entry) "."); [apply preserves_ret | now apply R_mkdir].
  - intros _. apply preserves_for_each. intros file Hfile.
    destruct (_should_process_as_template (fst file)).
    + apply preserves_process_template_file. now apply Hfiles.
    + apply R_write. now apply Hfiles.
Qed.

Lemma preserves_git_clone env repo_url repo_path :
  ok_path repo_path -> preserves R (git_clone env repo_url repo_path).
Proof.
  intros Hd. unfold git_clone.
  apply preserves_bind; [apply preserves_subprocess_run |].
  intros _. now apply R_mkdir.
Qed.

End Preserve.

(** ** Computations that return *)

Section Yields.

Import Sys Spec Agent.

Lemma yields_ret {A : Type} (a : A) (P : A -> Prop) : P a -> yields (ret a) P.
Proof. intros H w. now exists a. Qed.

Lemma yields_bind {A B : Type} (m : M A) (k : A -> M B) (P : A -> Prop) (Q : B -> Prop) :
  yields m P -> (forall a, P a -> yields (k a) Q) -> yields (bind m k) Q.
Proof.
  intros Hm Hk w. unfold bind. destruct (Hm w) as (a & Ha & HP).
  destruct (m w) as [r w1]; simpl in Ha; subst r.
  apply (Hk a HP).
Qed.

Lemma yields_weaken {A : Type} (m : M A) (P Q : A -> Prop) :
  (forall a, P a -> Q a) -> yields m P -> yields m Q.
Proof. intros H Hm w. destruct (Hm w) as (a & Ha & HP). eauto. Qed.

Lemma yields_try_except {A : Type} (m : M A) (h : exn -> M A) (P : A -> Prop) :
  yields m P -> yields (try_except m h) P.
Proof.
  intros Hm w. unfold try_except. destruct (Hm w) as (a & Ha & HP).
  destruct (m w) as [r w1]; simpl in Ha; subst r. now exists a.
Qed.

(** A handler that returns makes the whole [try] return. *)
Lemma yields_handled {A : Type} (m : M A) (h : exn -> M A) :
  (forall e, yields (h e) (fun _ => True)) -> yields (try_except m h) (fun _ => True).
Proof.
  intros Hh w. unfold try_except.
  destruct (m w) as [[a|e] w1]; [now exists a | apply Hh].
Qed.

Lemma yields_finally {A : Type} (m : M A) (c : M unit) (P : A -> Prop) :
  yields m P -> yields c (fun _ => True) -> yields (finally m c) P.
Proof.
  intros Hm Hc w. unfold finally. destruct (Hm w) as (a & Ha & HP).
  destruct (m w) as [r w1]; simpl in Ha; subst r.
  destruct (Hc w1) as ([] & Hu & _).
  destruct (c w1) as [r2 w2]; simpl in Hu; subst r2. now exists a.
Qed.

Lemma yields_for_each {A : Type} (l : list A) (f : A -> M unit) :
  (forall x, In x l -> yields (f x) (fun _ => True)) ->
  yields (for_each l f) (fun _ => True).
Proof.
  induction l as [|x l IH]; intros Hf; simpl.
  - now apply yields_ret.
  - eapply yields_bind; [apply Hf; now left |].
    intros _ _. apply IH. intros y Hy. apply Hf. now right.
Qed.

Lemma yields_write_file (p c : string) : yields (write_file p c) (fun _ => True).
Proof. intros w. now exists tt. Qed.

Lemma yields_makedirs (p : string) : yields (makedirs p) (fun _ => True).
Proof. intros w. now exists tt. Qed.

Lemma yields_rmtree (d : string) : yields (rmtree d) (fun _ => True).
Proof. intros w. now exists tt. Qed.

(** No template file, whatever the engine does with it, makes
    [_process_template_file] raise. *)
Lemma yields_process_template_file cfg env src dest app :
  yields (_process_template_file cfg env src dest app) (fun _ => True).
Proof.
  unfold _process_template_file. apply yields_handled.
  intros _. apply yields_write_file.
Qed.

Lemma yields_copy_template_files cfg env template_path repo_path app :
  yields (_copy_template_files cfg env template_path repo_path app) (fun _ => True).
Proof.
  unfold _copy_template_files. apply yields_for_each. intros entry _.
  eapply yields_bind.
  - destruct (String.eqb (fst entry) ".");
      [now apply (yields_ret tt (fun _ => True)) | apply yields_makedirs].
  - intros _ _. apply yields_for_each. intros file _.
    destruct (_should_process_as_template (fst file));
      [apply yields_process_template_file | apply yields_write_file].
Qed.

(** [populate_repo_from_stack] returns on every path. *)
Lemma yields_populate cfg env repo_url template_path app :
  yields (populate_repo_from_stack cfg env repo_url template_path app) (fun _ => True).
Proof.
  unfold populate_repo_from_stack, with_temporary_directory.
  eapply (yields_bind _ _ (fun _ => True)); [intros w; now eexists |].
  intros d _. apply yields_finally; [| apply yields_rmtree].
  apply yields_handled. intros _. now apply yields_ret.
Qed.

Section Succeeding.

Variable env : Env.
Hypothesis Hok : commands_succeed env.

Lemma yields_subprocess_run (argv : list string) (check : bool) :
  yields (subprocess_run env argv check) (fun _ => True).
Proof.
  intros w. unfold subprocess_run, bind, ask.
  destruct (Hok (trace w) argv) as (out & err & ->). now eexists.
Qed.

Lemma yields_git (repo_path : string) (args : list string) :
  yields (git env repo_path args) (fun _ => True).
Proof.
  unfold git. eapply yields_bind; [apply yields_subprocess_run |].
  intros _ _. now apply yields_ret.
Qed.

Lemma yields_commit_and_push (repo_path : string) (app : AppInfo) :
  yields (_commit_and_push env repo_path app) (fun _ => True).
Proof.
  unfold _commit_and_push.
  repeat (eapply yields_bind; [apply yields_git | intros _ _]).
  apply yields_git.
Qed.

Lemma yields_git_clone (repo_url repo_path : string) :
  yields (git_clone env repo_url repo_path) (fun _ => True).
Proof.
  unfold git_clone. eapply yields_bind; [apply yields_subprocess_run |].
  intros _ _. apply yields_makedirs.
Qed.

(** When the git commands succeed, the stage reports success,
    whatever the template engine did with the files. *)
Lemma populate_succeeds cfg repo_url template_path app :
  yields (populate_repo_from_stack cfg env repo_url template_path app)
    (fun b => b = true).
Proof.
  unfold populate_repo_from_stack, with_temporary_directory.
  eapply (yields_bind _ _ (fun _ => True)); [intros w; now eexists |].
  intros d _. apply yields_finally; [| apply yields_rmtree].
  apply yields_try_except.
  eapply yields_bind; [apply yields_git_clone | intros _ _].
  eapply yields_bind; [apply yields_copy_template_files | intros _ _].
  eapply yields_bind; [apply yields_commit_and_push | intros _ _].
  now apply yields_ret.
Qed.

End Succeeding.

End Yields.

(** ** Copying the template tree *)

Section Copy.

Import Sys Spec Agent.

Lemma put_all_other (l : list (string * string)) (m : gmap string string) (k : string) :
  ~ In k (map fst l) -> put_all l m !! k = m !! k.
Proof.
  revert m; induction l as [|[k' v'] l IH]; intros m Hk; simpl in *; [reflexivity |].
  rewrite IH by tauto. apply lookup_insert_ne. tauto.
Qed.

Lemma put_all_lookup (l : list (string * string)) (m : gmap string string)
    (k v : string) :
  List.NoDup (map fst l) -> In (k, v) l -> put_all l m !! k = Some v.
Proof.
  revert m; induction l as [|[k' v'] l IH]; intros m Hnd Hin; simpl in *; [tauto |].
  apply List.NoDup_cons_iff in Hnd as [Hk' Hnd].
  destruct Hin as [[= -> ->] | Hin].
  - rewrite put_all_other by exact Hk'. apply lookup_insert_eq.
  - now apply IH.
Qed.

Lemma process_template_file_writes cfg env src dest app w :
  _process_template_file cfg env src dest app w
  = write_file dest
      (match render env src (template_vars cfg app) with
       | Some rendered => rendered
       | None => src
       end) w.
Proof.
  unfold _process_template_file, try_except.
  now destruct (render env src (template_vars cfg app)).
Qed.

Lemma for_each_writes {A : Type} (l : list A) (f : A -> M unit)
    (kv : A -> string * string) (w : World) :
  (forall x w, f x w = write_file (kv x).1 (kv x).2 w) ->
  for_each l f w
  = (Returns tt,
     {| trace := trace w; fs := put_all (map kv l) (fs w); dirs := dirs w |}).
Proof.
  intros Hf. revert w; induction l as [|x l IH]; intros w; simpl.
  - now destruct w.
  - unfold bind. rewrite Hf. unfold write_file at 1. now rewrite IH.
Qed.

Lemma copy_template_files_fs cfg env template_path repo_path app w :
  exists w',
    _copy_template_files cfg env template_path repo_path app w = (Returns tt, w')
    /\ trace w' = trace w
    /\ fs w' = put_all (written cfg env app repo_path (walk env template_path)) (fs w).
Proof.
  unfold _copy_template_files, written.
  generalize (walk env template_path) as l.
  intros l. revert w; induction l as [|entry l IH]; intros w; simpl.
  - now exists w.
  - unfold bind at 1.
    set (w1 := snd ((if String.eqb (fst entry) "." then ret tt
                     else makedirs (Str.join repo_path (fst entry))) w)).
    assert (E1 : (if String.eqb (fst entry) "." then ret tt
                  else makedirs (Str.join repo_path (fst entry))) w = (Returns tt, w1)
                 /\ trace w1 = trace w /\ fs w1 = fs w).
    { subst w1. now destruct (String.eqb (fst entry) "."). }
    destruct E1 as (E1 & Ht1 & Hf1).
    unfold bind at 1. rewrite E1.
    rewrite (for_each_writes (snd entry) _
               (fun file => (dest_of repo_path (fst entry) (fst file),
                             content_of cfg env app file))).
    + destruct (IH {| trace := trace w1;
                     fs := put_all
                             (map (fun file => (dest_of repo_path (fst entry) (fst file),
                                                content_of cfg env app file)) (snd entry))
                             (fs w1);
                     dirs := dirs w1 |}) as (w' & E & Ht & Hfs).
      exists w'. split; [exact E |]. split; [now rewrite Ht |].
      rewrite Hfs. unfold put_all. simpl. now rewrite fold_left_app, Hf1.
    + intros file w2. unfold content_of. simpl.
      destruct (_should_process_as_template (fst file));
        [apply process_template_file_writes | reflexivity].
Qed.

Lemma written_destinations cfg env app repo_path l :
  map fst (written cfg env app repo_path l) = destinations repo_path l.
Proof.
  unfold written, destinations. induction l as [|entry l IH]; simpl; [reflexivity |].
  rewrite List.map_app, IH. f_equal. now rewrite List.map_map.
Qed.

Lemma in_written cfg env app repo_path l entry file :
  In entry l -> In file (snd entry) ->
  In (dest_of repo_path (fst entry) (fst file), content_of cfg env app file)
     (written cfg env app repo_path l).
Proof.
  intros He Hf. unfold written. apply in_flat_map. exists entry. split; [exact He |].
  apply in_map_iff. now exists file.
Qed.

End Copy.

(** C7 (amended).  In [OnboardingAgent] a template file whose
    rendering throws is written to its destination unchanged, and
    nothing else happens: copying a template tree never raises,
    every such file of a tree (with distinct destinations) is in the
    clone with the content of its source, and the populate stage
    returns on every path and reports success whenever its git
    commands succeed. *)
Theorem C7_render_failures_are_local :
  (forall cfg env src dest app w,
      Sys.render env src (Agent.template_vars cfg app) = None ->
      Agent._process_template_file cfg env src dest app w = Sys.write_file dest src w)
  /\ (forall cfg env template_path repo_path app w,
      exists w',
        Agent._copy_template_files cfg env template_path repo_path app w
        = (Sys.Returns tt, w')
        /\ forall entry file,
            List.NoDup (Spec.destinations repo_path (Sys.walk env template_path)) ->
            In entry (Sys.walk env template_path) -> In file (snd entry) ->
            Agent._should_process_as_template (fst file) = true ->
            Sys.render env (snd file) (Agent.template_vars cfg app) = None ->
            Sys.fs w' !! Agent.dest_of repo_path (fst entry) (fst file) = Some (snd file))
  /\ (forall cfg env repo_url template_path app,
      Spec.commands_succeed env ->
      Spec.yields (Agent.populate_repo_from_stack cfg env repo_url template_path app)
        (fun b => b = true))
  /\ (forall cfg env repo_url template_path app,
      Spec.yields (Agent.populate_repo_from_stack cfg env repo_url template_path app)
        (fun _ => True)).
Proof.
  split; [| split; [| split]].
  - intros cfg env src dest app w Hr.
    now rewrite process_template_file_writes, Hr.
  - intros cfg env template_path repo_path app w.
    destruct (copy_template_files_fs cfg env template_path repo_path app w)
      as (w' & E & _ & Hfs).
    exists w'. split; [exact E |].
    intros entry file Hnd He Hf Ht Hr. rewrite Hfs.
    apply put_all_lookup; [now rewrite written_destinations |].
    replace (snd file) with (Spec.content_of cfg env app file)
      by (unfold Spec.content_of; now rewrite Ht, Hr).
    now apply in_written.
  - intros cfg env repo_url template_path app Hok. now apply populate_succeeds.
  - intros cfg env repo_url template_path app. apply yields_populate.
Qed.

Lemma demo_commands_succeed reply parsed create :
  Spec.commands_succeed (Demo.env reply parsed create Demo.ok).
Proof. intros h argv. now exists EmptyString, EmptyString. Defined.

Lemma C7_render_failures_are_local_witness :
  let env := Demo.env None None Demo.host Demo.ok in
  let broken := "{{ broken" in
  (Sys.render env broken (Agent.template_vars Demo.cfg Demo.shop) = None
   /\ Agent._process_template_file Demo.cfg env broken "/tmp/t/k8s/deploy.yaml" Demo.shop
        Demo.w0
      = Sys.write_file "/tmp/t/k8s/deploy.yaml" broken Demo.w0)
  /\ (exists w',
        Agent._copy_template_files Demo.cfg env "/templates/app" "/tmp/t" Demo.shop Demo.w0
        = (Sys.Returns tt, w')
        /\ Sys.fs w' !! "/tmp/t/k8s/deploy.yaml" = Some broken)
  /\ (Spec.commands_succeed env
      /\ exists b,
          fst (Agent.populate_repo_from_stack Demo.cfg env
                 "https://github.com/dev/shop-source.git" "/templates/app" Demo.shop Demo.w0)
          = Sys.Returns b /\ b = true).
Proof.
  intros env broken.
  destruct C7_render_failures_are_local as (H1 & H2 & H3 & _).
  split; [| split].
  - split; [reflexivity |]. now apply H1.
  - destruct (H2 Demo.cfg env "/templates/app" "/tmp/t" Demo.shop Demo.w0)
      as (w' & E & Hraw).
    exists w'. split; [exact E |].
    apply (Hraw ("k8s", [("deploy.yaml", broken)]) ("deploy.yaml", broken)).
    + vm_compute. repeat constructor; simpl; intuition discriminate.
    + simpl. auto.
    + simpl. auto.
    + reflexivity.
    + reflexivity.
  - split; [apply demo_commands_succeed |].
    apply (H3 Demo.cfg env _ _ Demo.shop (demo_commands_succeed _ _ _)).
Defined.

(** C7 as stated fails on the function-based variant: a template that
    does not render makes its populate stage raise, although every git
    command succeeds. *)
Lemma C7_counterexample :
  let env := Demo.env None None Demo.host Demo.ok in
  let run :=
    GoldenPath.populate_repo_from_stack env "https://github.com/dev/shop-source.git"
      "/templates/app" "shop" "A shop" Demo.w0 in
  Spec.commands_succeed env
  /\ fst run = Sys.Raises (Sys.Exception "template error")
  /\ Sys.fs (snd run) !! "/tmp/shop-source/k8s/deploy.yaml" = None.
Proof.
  split; [apply demo_commands_succeed |].
  split; vm_compute; reflexivity.
Qed.

(** ** Calls that have been made *)

Section Establish.

Import Sys Spec Agent.

Variable Q : World -> Prop.

Lemma establishes_bind {A B : Type} (m : M A) (k : A -> M B) :
  establishes Q m -> (forall a, preserves (keeps Q) (k a)) -> establishes Q (bind m k).
Proof.
  intros Hm Hk w. unfold bind. specialize (Hm w).
  destruct (m w) as [[a|e] w1]; simpl in *; [| exact Hm].
  now apply Hk.
Qed.

Lemma establishes_try_except {A : Type} (m : M A) (h : exn -> M A) :
  establishes Q m -> (forall e, preserves (keeps Q) (h e)) ->
  establishes Q (try_except m h).
Proof.
  intros Hm Hh w. unfold try_except. specialize (Hm w).
  destruct (m w) as [[a|e] w1]; simpl in *; [exact Hm |].
  now apply Hh.
Qed.

Lemma establishes_finally {A : Type} (m : M A) (c : M unit) :
  establishes Q m -> preserves (keeps Q) c -> establishes Q (finally m c).
Proof.
  intros Hm Hc w. unfold finally. specialize (Hm w).
  destruct (m w) as [r w1]. specialize (Hc w1).
  destruct (c w1) as [[[]|e] w2]; simpl in *; now apply Hc.
Qed.

End Establish.

Lemma called_invariant (c : Sys.call) :
  Spec.invariant (Spec.keeps (Spec.called c)) (fun _ => True).
Proof.
  split; unfold Spec.keeps, Spec.called, Spec.preserves; simpl; auto.
  intros c' w H. apply in_or_app. now left.
Qed.

Lemma subprocess_run_called (env : Sys.Env) (argv : list string) (check : bool) :
  Spec.establishes (Spec.called (Sys.Exec argv)) (Sys.subprocess_run env argv check).
Proof.
  intros w. unfold Sys.subprocess_run, Sys.bind, Sys.ask.
  assert (H : Spec.called (Sys.Exec argv) (Sys.logged (Sys.Exec argv) w)).
  { unfold Spec.called. simpl. apply in_or_app. right. now left. }
  destruct (Sys.exec env (Sys.trace w) argv) as [[|n] out err | msg];
    try destruct check; exact H.
Qed.

(** Whatever the template directory, [populate_repo_from_stack] runs
    [git clone] into the temporary directory. *)
Lemma populate_clones cfg env repo_url template_path app w :
  let d := Sys.tmpname env (Sys.trace w) in
  Spec.called
    (Sys.Exec ["git"; "clone"; repo_url; Str.join d (Agent.repo_name_of repo_url)])
    (snd (Agent.populate_repo_from_stack cfg env repo_url template_path app w)).
Proof.
  intros d.
  set (c := Sys.Exec ["git"; "clone"; repo_url; Str.join d (Agent.repo_name_of repo_url)]).
  pose proof (called_invariant c) as HR.
  unfold Agent.populate_repo_from_stack, Sys.with_temporary_directory.
  unfold Sys.bind at 1. simpl.
  apply establishes_finally.
  - apply establishes_try_except.
    + apply establishes_bind.
      * unfold Agent.git_clone. apply establishes_bind.
        -- apply subprocess_run_called.
        -- intros _. now apply (Spec.inv_mkdir _ _ HR).
      * intros _. apply (preserves_bind _ _ HR).
        -- now apply (preserves_copy_template_files _ _ HR).
        -- intros _. apply (preserves_bind _ _ HR).
           ++ apply (preserves_commit_and_push _ _ HR).
           ++ intros _. apply (preserves_ret _ _ HR).
    + intros _. apply (preserves_ret _ _ HR).
  - intros w'. unfold Sys.rmtree. simpl. apply (Spec.inv_logged _ _ HR).
Qed.

(** ** The template root *)

(** C2 (amended).  [OnboardingAgent] rejects a template root that does
    not exist when the agent is constructed: a configuration that
    [_validate_config] accepts has both template directories.  Its
    populate stage makes no check of its own.  With a template root that
    does not exist it copies no file, it still returns, it has run
    [git clone] into its temporary directory, and it reports success when
    the git commands succeed. *)
Theorem C2_template_root_checked_at_construction :
  (forall cfg env,
      Agent._validate_config cfg env = None ->
      Sys.path_exists env (Agent.nodejs_template_path cfg) = true
      /\ Sys.path_exists env (Agent.gitops_template_path cfg) = true)
  /\ (forall cfg env repo_url template_path app w,
      Sys.path_exists env template_path = false ->
      let d := Sys.tmpname env (Sys.trace w) in
      (forall repo_path w0,
          Agent._copy_template_files cfg env template_path repo_path app w0
          = (Sys.Returns tt, w0))
      /\ exists b w',
          Agent.populate_repo_from_stack cfg env repo_url template_path app w
          = (Sys.Returns b, w')
          /\ Spec.called
               (Sys.Exec ["git"; "clone"; repo_url;
                          Str.join d (Agent.repo_name_of repo_url)]) w'
          /\ (Spec.commands_succeed env -> b = true)).
Proof.
  split.
  - intros cfg env. unfold Agent._validate_config.
    destruct (existsb _ _); [discriminate |].
    destruct (Sys.path_exists env (Agent.nodejs_template_path cfg)); [| discriminate].
    destruct (Sys.path_exists env (Agent.gitops_template_path cfg)); [| discriminate].
    auto.
  - intros cfg env repo_url template_path app w Hmissing d.
    split.
    + intros repo_path w0. unfold Agent._copy_template_files, Sys.walk.
      unfold Sys.path_exists in Hmissing.
      destruct (Sys.tree env template_path); [discriminate | reflexivity].
    + pose proof (populate_clones cfg env repo_url template_path app w) as Hclone.
      destruct (yields_populate cfg env repo_url template_path app w) as (b & Hb & _).
      exists b, (snd (Agent.populate_repo_from_stack cfg env repo_url template_path app w)).
      split; [| split].
      * rewrite <- Hb. now destruct (Agent.populate_repo_from_stack _ _ _ _ _ _).
      * exact Hclone.
      * intros Hok.
        destruct (populate_succeeds env Hok cfg repo_url template_path app w)
          as (b' & Hb' & ->).
        congruence.
Qed.

Lemma C2_template_root_checked_at_construction_witness :
  let env := Demo.env None None Demo.host Demo.ok in
  (Agent._validate_config Demo.cfg env = None
   /\ Sys.path_exists env "/templates/app" = true
   /\ Sys.path_exists env "/templates/gitops" = true)
  /\ (Sys.path_exists env "/templates/missing" = false
      /\ Spec.commands_succeed env
      /\ exists b w',
          Agent.populate_repo_from_stack Demo.cfg env
            "https://github.com/dev/shop-source.git" "/templates/missing" Demo.shop Demo.w0
          = (Sys.Returns b, w')
          /\ Spec.called
               (Sys.Exec ["git"; "clone"; "https://github.com/dev/shop-source.git";
                          "/tmp/tmp/shop-source"]) w'
          /\ b = true).
Proof.
  intros env.
  destruct C2_template_root_checked_at_construction as (H1 & H2).
  split.
  - split; [reflexivity |]. exact (H1 Demo.cfg env eq_refl).
  - split; [reflexivity |]. split; [apply demo_commands_succeed |].
    destruct (H2 Demo.cfg env "https://github.com/dev/shop-source.git"
                "/templates/missing" Demo.shop Demo.w0 eq_refl)
      as (_ & b & w' & E & Hc & Hb).
    exists b, w'. split; [exact E |]. split; [exact Hc |].
    apply Hb, demo_commands_succeed.
Defined.

(** C2 as stated fails in both variants: with a template root that
    does not exist the repository is cloned first.  [OnboardingAgent]
    then reports success when git does; the function-based variant
    returns [False] after the clone, and raises when the clone fails. *)
Lemma C2_counterexample :
  let url := "https://github.com/dev/shop-source.git" in
  let env := Demo.env None None Demo.host Demo.ok in
  let run := Agent.populate_repo_from_stack Demo.cfg env url "/templates/missing"
               Demo.shop Demo.w0 in
  let run' := GoldenPath.populate_repo_from_stack env url "/templates/missing" "shop"
                "A shop" Demo.w0 in
  let run'' :=
    GoldenPath.populate_repo_from_stack (Demo.env None None Demo.host Demo.clone_fails)
      url "/templates/missing" "shop" "A shop" Demo.w0 in
  Sys.path_exists env "/templates/missing" = false
  /\ fst run = Sys.Returns true
  /\ In (Sys.Exec ["git"; "clone"; url; "/tmp/tmp/shop-source"]) (Sys.trace (snd run))
  /\ fst run' = Sys.Returns false
  /\ In (Sys.Exec ["git"; "clone"; url; "/tmp/shop-source"]) (Sys.trace (snd run'))
  /\ fst run''
     = Sys.Raises
         (Sys.CalledProcessError ["git"; "clone"; url; "/tmp/shop-source"] 128
            EmptyString "fatal: repository not found").
Proof.
  repeat split; try (vm_compute; reflexivity); vm_compute; auto 10.
Qed.

(** ** The onboarding flow *)

Section Flow.

Import Sys Agent.

Variables (cfg : Config) (env : Env) (request : string) (w : World).

Lemma flow_halts_on_provision_failure app w1 e w2 :
  extract_app_info env request (logged Clock w) = (Returns app, w1) ->
  create_github_repo cfg env app w1 = (Raises e, w2) ->
  run_onboarding_flow cfg env request w
  = (Returns (Spec.result false (Some app) None false
                (Some (str_exn e)) (now env (trace w))), w2).
Proof.
  intros H1 H2. unfold run_onboarding_flow, bind, ask. cbv beta iota zeta.
  unfold stage. now rewrite H1, H2.
Qed.

(** A populate stage that reports failure ends the flow where it
    stands: the world is the one that stage left, the result carries the
    [AppInfo] and the [RepositoryInfo] and an error text. *)
Lemma flow_halts_on_source_failure app w1 info w2 w3 :
  extract_app_info env request (logged Clock w) = (Returns app, w1) ->
  create_github_repo cfg env app w1 = (Returns info, w2) ->
  populate_repo_from_stack cfg env (source_repo_url info) (nodejs_template_path cfg) app w2
  = (Returns false, w3) ->
  run_onboarding_flow cfg env request w
  = (Returns (Spec.result false (Some app) (Some info) false
                (Some "Failed to populate source repository") (now env (trace w))), w3).
Proof.
  intros H1 H2 H3. unfold run_onboarding_flow, bind, ask. cbv beta iota zeta.
  unfold stage. now rewrite H1, H2, H3.
Qed.

Lemma flow_halts_on_gitops_failure app w1 info w2 w3 w4 :
  extract_app_info env request (logged Clock w) = (Returns app, w1) ->
  create_github_repo cfg env app w1 = (Returns info, w2) ->
  populate_repo_from_stack cfg env (source_repo_url info) (nodejs_template_path cfg) app w2
  = (Returns true, w3) ->
  populate_repo_from_stack cfg env (gitops_repo_url info) (gitops_template_path cfg) app w3
  = (Returns false, w4) ->
  run_onboarding_flow cfg env request w
  = (Returns (Spec.result false (Some app) (Some info) false
                (Some "Failed to populate GitOps repository") (now env (trace w))), w4).
Proof.
  intros H1 H2 H3 H4. unfold run_onboarding_flow, bind, ask. cbv beta iota zeta.
  unfold stage. rewrite H1, H2, H3. change (negb true) with false. cbv beta iota.
  now rewrite H4.
Qed.

(** After two successful populate stages the flow reports success,
    whatever the registrar returned. *)
Lemma flow_after_registration app w1 info w2 w3 w4 deployed w5 :
  extract_app_info env request (logged Clock w) = (Returns app, w1) ->
  create_github_repo cfg env app w1 = (Returns info, w2) ->
  populate_repo_from_stack cfg env (source_repo_url info) (nodejs_template_path cfg) app w2
  = (Returns true, w3) ->
  populate_repo_from_stack cfg env (gitops_repo_url info) (gitops_template_path cfg) app w3
  = (Returns true, w4) ->
  create_argocd_application cfg env app (gitops_repo_url info) w4 = (Returns deployed, w5) ->
  run_onboarding_flow cfg env request w
  = (Returns (Spec.result true (Some app) (Some info) deployed
                None (now env (trace w))), w5).
Proof.
  intros H1 H2 H3 H4 H5. unfold run_onboarding_flow, bind, ask. cbv beta iota zeta.
  unfold stage. rewrite H1, H2, H3. change (negb true) with false. cbv beta iota.
  rewrite H4. change (negb true) with false. cbv beta iota.
  now rewrite H5.
Qed.

End Flow.

(** The flow of the function-based variant does test the registrar:
    it returns what the registrar returned. *)
Lemma golden_flow_tests_registration env user cwd request w app_name w1 urls w2 w3 w4
    deployed w5 :
  GoldenPath.extract_app_name_from_request env request w = (Sys.Returns app_name, w1) ->
  GoldenPath.create_github_repo env user app_name w1 = (Sys.Returns urls, w2) ->
  GoldenPath.populate_repo_from_stack env (fst urls)
    (Str.join (Str.join (Str.join (Str.join cwd "..") "cnoe-stacks") "nodejs-template")
       "app-source")
    app_name ("NodeJS application for " +:+ app_name) w2 = (Sys.Returns true, w3) ->
  GoldenPath.populate_repo_from_stack env (snd urls)
    (Str.join (Str.join (Str.join cwd "..") "cnoe-stacks") "nodejs-gitops-template")
    app_name ("GitOps configuration for " +:+ app_name) w3 = (Sys.Returns true, w4) ->
  GoldenPath.create_argocd_application env app_name (snd urls) w4
  = (Sys.Returns deployed, w5) ->
  GoldenPath.run_onboarding_flow env user cwd request w = (Sys.Returns deployed, w5).
Proof.
  intros H1 H2 H3 H4 H5. unfold GoldenPath.run_onboarding_flow, Sys.bind.
  rewrite H1, H2. cbv zeta. rewrite H3. change (negb true) with false. cbv beta iota.
  rewrite H4. change (negb true) with false. cbv beta iota.
  rewrite H5. now destruct deployed.
Qed.

(** A [kubectl apply] that exits with a non-zero status makes the
    registrar return [False]. *)
Lemma registrar_reports_apply_failure cfg env app url w n out err :
  Sys.kube_config env (Sys.trace w) = None ->
  let w1 := Sys.logged Sys.LoadKubeConfig w in
  let manifest := Agent._generate_argocd_manifest cfg app url in
  let f := Sys.tmpname env (Sys.trace w1) +:+ ".yaml" in
  let w2 := snd (Sys.named_temporary_file env ".yaml" manifest w1) in
  Sys.exec env (Sys.trace w2) ["kubectl"; "apply"; "-f"; f] = Sys.Exit (S n) out err ->
  fst (Agent.create_argocd_application cfg env app url w) = Sys.Returns false.
Proof.
  intros Hkube w1 manifest f w2 Hexec.
  unfold Agent.create_argocd_application, Agent.load_kube_config,
    Agent._apply_kubernetes_manifest, Sys.try_except, Sys.bind, Sys.ask.
  rewrite Hkube. cbv beta iota zeta.
  unfold Sys.named_temporary_file at 1. cbv beta iota zeta.
  unfold Sys.finally, Agent.try_except_process, Sys.subprocess_run, Sys.bind, Sys.ask.
  subst w2 f w1 manifest. simpl in Hexec. simpl. rewrite Hexec. simpl.
  unfold Sys.unlink. simpl. now rewrite lookup_insert_eq.
Qed.

(** C1 (defect of the code).  When extraction, provisioning and both
    populate stages have succeeded and [kubectl apply] then exits with a
    non-zero status, [run_onboarding_flow] returns a result with
    [success == true] and no error text, the failure being visible only
    in [argocd_created == false].  The claim asks for [success == false]
    and an error text there, as the flow gives them for a failed populate
    stage ([flow_halts_on_source_failure], [flow_halts_on_gitops_failure]). *)
Theorem C1_apply_failure_reported_as_success :
  forall cfg env request w app w1 info w2 w3 w4 n out err,
    Agent.extract_app_info env request (Sys.logged Sys.Clock w) = (Sys.Returns app, w1) ->
    Agent.create_github_repo cfg env app w1 = (Sys.Returns info, w2) ->
    Agent.populate_repo_from_stack cfg env (Agent.source_repo_url info)
      (Agent.nodejs_template_path cfg) app w2 = (Sys.Returns true, w3) ->
    Agent.populate_repo_from_stack cfg env (Agent.gitops_repo_url info)
      (Agent.gitops_template_path cfg) app w3 = (Sys.Returns true, w4) ->
    Sys.kube_config env (Sys.trace w4) = None ->
    (let w5 := Sys.logged Sys.LoadKubeConfig w4 in
     let manifest := Agent._generate_argocd_manifest cfg app (Agent.gitops_repo_url info) in
     let f := Sys.tmpname env (Sys.trace w5) +:+ ".yaml" in
     let w6 := snd (Sys.named_temporary_file env ".yaml" manifest w5) in
     Sys.exec env (Sys.trace w6) ["kubectl"; "apply"; "-f"; f] = Sys.Exit (S n) out err) ->
    exists res w',
      Agent.run_onboarding_flow cfg env request w = (Sys.Returns res, w')
      /\ Agent.success res = true
      /\ Agent.error res = None
      /\ Agent.argocd_created res = false
      /\ Agent.app_info res = Some app
      /\ Agent.repositories res = Some info.
Proof.
  intros cfg env request w app w1 info w2 w3 w4 n out err H1 H2 H3 H4 Hkube Hexec.
  pose proof (registrar_reports_apply_failure cfg env app (Agent.gitops_repo_url info)
                w4 n out err Hkube Hexec) as Hreg.
  destruct (Agent.create_argocd_application cfg env app (Agent.gitops_repo_url info) w4)
    as [r w'] eqn:H5.
  simpl in Hreg. subst r.
  eexists _, w'. split.
  - exact (flow_after_registration cfg env request w app w1 info w2 w3 w4 false w'
             H1 H2 H3 H4 H5).
  - repeat split.
Qed.

Lemma C1_apply_failure_reported_as_success_witness :
  let env := Demo.env None None Demo.host Demo.kubectl_fails in
  Demo.kubectl_fails ["kubectl"; "apply"; "-f"; "/tmp/tmpxxxxxxxxxxxxxxxxxxxxxx.yaml"]
  = Sys.Exit 1 EmptyString "error: unable to connect to the server"
  /\ exists res w',
      Agent.run_onboarding_flow Demo.cfg env "deploy a service called shop" Demo.w0
      = (Sys.Returns res, w')
      /\ Agent.success res = true
      /\ Agent.error res = None
      /\ Agent.argocd_created res = false
      /\ Agent.app_info res = Some (Agent._fallback_extraction "deploy a service called shop")
      /\ Agent.repositories res
         = Some (Spec.info_of
                   {| Sys.clone_url := "https://github.com/dev/shop-source.git";
                      Sys.html_url := "https://github.com/dev/shop-source";
                      Sys.repo_id := "1" |}
                   {| Sys.clone_url := "https://github.com/dev/shop-gitops.git";
                      Sys.html_url := "https://github.com/dev/shop-gitops";
                      Sys.repo_id := "1" |}).
Proof.
  intros env. split; [reflexivity |].
  set (request := "deploy a service called shop").
  set (r1 := Agent.extract_app_info env request (Sys.logged Sys.Clock Demo.w0)).
  assert (H1 : r1 = (Sys.Returns (Agent._fallback_extraction request), snd r1)).
  { transitivity (fst r1, snd r1); [apply surjective_pairing |].
    apply (f_equal (fun o => (o, snd r1))). vm_compute. reflexivity. }
  set (info := Spec.info_of _ _).
  set (r2 := Agent.create_github_repo Demo.cfg env (Agent._fallback_extraction request)
               (snd r1)).
  assert (H2 : r2 = (Sys.Returns info, snd r2)).
  { transitivity (fst r2, snd r2); [apply surjective_pairing |].
    apply (f_equal (fun o => (o, snd r2))). vm_compute. reflexivity. }
  set (r3 := Agent.populate_repo_from_stack Demo.cfg env (Agent.source_repo_url info)
               (Agent.nodejs_template_path Demo.cfg)
               (Agent._fallback_extraction request) (snd r2)).
  assert (H3 : r3 = (Sys.Returns true, snd r3)).
  { transitivity (fst r3, snd r3); [apply surjective_pairing |].
    apply (f_equal (fun o => (o, snd r3))). vm_compute. reflexivity. }
  set (r4 := Agent.populate_repo_from_stack Demo.cfg env (Agent.gitops_repo_url info)
               (Agent.gitops_template_path Demo.cfg)
               (Agent._fallback_extraction request) (snd r3)).
  assert (H4 : r4 = (Sys.Returns true, snd r4)).
  { transitivity (fst r4, snd r4); [apply surjective_pairing |].
    apply (f_equal (fun o => (o, snd r4))). vm_compute. reflexivity. }
  exact (C1_apply_failure_reported_as_success Demo.cfg env request Demo.w0
           _ _ _ _ _ _ 0 EmptyString "error: unable to connect to the server"
           H1 H2 H3 H4 eq_refl eq_refl).
Defined.

(** ** Paths below a directory *)

Section Paths.

Import Str.

Lemma startswith_refl (p : string) : Py.startswith p p = true.
Proof. induction p as [|c p IH]; simpl; [reflexivity | now rewrite Ascii.eqb_refl]. Qed.

Lemma startswith_app_r (p s t : string) :
  Py.startswith p s = true -> Py.startswith p (s +:+ t) = true.
Proof.
  intros H. destruct (startswith_split _ _ H) as [r ->].
  rewrite app_assoc. apply startswith_app.
Qed.

Lemma startswith_sepd (q p : string) :
  Py.startswith q p = true -> Py.startswith q (sepd p) = true.
Proof.
  intros H. unfold sepd. destruct p as [|c p]; [exact H |].
  destruct (ends_in slash (String c p)); [exact H | now apply startswith_app_r].
Qed.

Lemma under_self (d : string) : under d d = true.
Proof. unfold under. now rewrite String.eqb_refl. Qed.

(** Joining a relative name to a path below [d] stays below [d]. *)
Lemma under_join (d p x : string) :
  under d p = true -> is_abs x = false -> under d (join p x) = true.
Proof.
  unfold under, join. intros Hp ->.
  apply orb_true_iff. right.
  apply orb_true_iff in Hp as [Hp | Hp].
  - apply String.eqb_eq in Hp as ->. apply startswith_app.
  - apply startswith_app_r. now apply startswith_sepd.
Qed.

Lemma split_no_slash (s : string) : Forall (fun x => no_slash x = true) (split slash s).
Proof.
  induction s as [|c s IH]; simpl; [now repeat constructor |].
  destruct (Ascii.eqb c slash) eqn:Hc; [now constructor |].
  destruct (split slash s) as [|h t]; [| inversion IH; subst; constructor; auto].
  - repeat constructor. unfold no_slash. simpl. now rewrite Hc.
  - unfold no_slash in *. simpl. now rewrite Hc.
Qed.

Lemma last_no_slash (l : list string) :
  Forall (fun x => no_slash x = true) l -> no_slash (last l) = true.
Proof.
  unfold last. induction l as [|x l IH]; intros H; [reflexivity |].
  inversion H; subst. destruct l; simpl; auto.
Qed.

Lemma replace_go_chars (p : ascii -> bool) (old : string) (k : nat) (s : string) :
  Py.all_chars p s = true -> Py.all_chars p (replace_go old EmptyString k s) = true.
Proof.
  revert k; induction s as [|c s IH]; intros k H; simpl in *; [reflexivity |].
  apply andb_true_iff in H as [Hc Hs].
  destruct k; [| now apply IH].
  destruct (Py.startswith old (String c s)); simpl; [now apply IH |].
  now rewrite Hc, IH.
Qed.

Lemma no_slash_relative (s : string) : no_slash s = true -> is_abs s = false.
Proof.
  destruct s as [|c s]; [reflexivity |]. unfold no_slash. simpl.
  intros H. apply andb_true_iff in H as [H _]. now apply negb_true_iff.
Qed.

(** The name of the clone is a relative name. *)
Lemma repo_name_relative (repo_url : string) : is_abs (Agent.repo_name_of repo_url) = false.
Proof.
  apply no_slash_relative. unfold Agent.repo_name_of, replace.
  apply replace_go_chars, last_no_slash, split_no_slash.
Qed.

Lemma under_dest (d repo_path rel file : string) :
  under d repo_path = true -> is_abs rel = false -> is_abs file = false ->
  under d (Agent.dest_of repo_path rel file) = true.
Proof.
  intros Hp Hrel Hfile. unfold Agent.dest_of.
  destruct (String.eqb rel "."); auto using under_join.
Qed.

End Paths.

(** ** Scratch space *)

Section Scratch.

Import Sys Spec.

Variable d : string.

Lemma erase_fs_lookup (w : World) (p : string) :
  Str.under d p = true -> fs (erase d w) !! p = None.
Proof.
  intros Hp. unfold erase. simpl. apply map_lookup_filter_None. right.
  intros x _ Hout. unfold outside in Hout. simpl in Hout. congruence.
Qed.

Lemma erase_dirs_elem (w : World) (p : string) :
  Str.under d p = true -> p ∉ dirs (erase d w).
Proof.
  intros Hp. unfold erase. simpl. intros Hin.
  apply elem_of_filter in Hin as [Hout _]. unfold outside in Hout. congruence.
Qed.

Lemma erase_idem (w : World) :
  fs (erase d (erase d w)) = fs (erase d w)
  /\ dirs (erase d (erase d w)) = dirs (erase d w).
Proof.
  unfold erase. simpl. split.
  - apply map_filter_id. intros p x H.
    now apply map_lookup_filter_Some in H as [_ H].
  - apply set_eq. intros p. rewrite !elem_of_filter. tauto.
Qed.

(** Where nothing exists at [d] or below, erasing [d] changes nothing. *)
Lemma erase_unused (w : World) :
  unused d w -> fs (erase d w) = fs w /\ dirs (erase d w) = dirs w.
Proof.
  intros Hun. unfold erase. simpl. split.
  - apply map_filter_id. intros p x H. unfold outside. simpl.
    destruct (Str.under d p) eqn:E; [| reflexivity].
    destruct (Hun p E) as [Hnone _]. congruence.
  - apply set_eq. intros p. rewrite elem_of_filter. split; [tauto |].
    intros Hin. split; [| exact Hin]. unfold outside.
    destruct (Str.under d p) eqn:E; [| reflexivity].
    destruct (Hun p E) as [_ Hnot]. contradiction.
Qed.

(** Writing and making directories below [d] and recording calls
    leave everything outside [d] as it is. *)
Lemma same_outside_invariant :
  invariant (same_outside d) (fun p => Str.under d p = true).
Proof.
  split.
  - intros w. now split.
  - intros a b c [H1 H2] [H3 H4]. split; congruence.
  - intros c w. now split.
  - intros p c Hp w. unfold same_outside, erase. simpl. split; [| reflexivity].
    apply map_filter_insert_not. intros y Hout. unfold outside in Hout. simpl in Hout.
    congruence.
  - intros p Hp w. unfold same_outside, erase. simpl. split; [reflexivity |].
    apply set_eq. intros q. rewrite !elem_of_filter, elem_of_union, elem_of_singleton.
    split; [| tauto]. intros [Hout [-> | Hq]]; [| tauto].
    unfold outside in Hout. congruence.
Qed.

Lemma same_outside_rmtree : preserves (same_outside d) (rmtree d).
Proof.
  intros w. unfold rmtree, same_outside. simpl.
  destruct (erase_idem (logged (RmTemp d) w)) as [H1 H2]. now split.
Qed.

End Scratch.

(** The body of the populate stage works below its temporary directory. *)
Lemma populate_same_outside cfg env repo_url template_path app w :
  let d := Sys.tmpname env (Sys.trace w) in
  Spec.relative (Sys.walk env template_path) ->
  Spec.same_outside d w
    (snd (Agent.populate_repo_from_stack cfg env repo_url template_path app w)).
Proof.
  intros d Hrel.
  pose proof (same_outside_invariant d) as HR.
  assert (Hrp : Str.under d (Str.join d (Agent.repo_name_of repo_url)) = true).
  { apply under_join; [apply under_self | apply repo_name_relative]. }
  unfold Agent.populate_repo_from_stack, Sys.with_temporary_directory.
  unfold Sys.bind at 1. cbv beta iota zeta.
  change (Sys.mkdtemp env w) with (Sys.Returns d, snd (Sys.mkdtemp env w)).
  cbv beta iota.
  apply (Spec.inv_trans _ _ HR _ (snd (Sys.mkdtemp env w))).
  { unfold Sys.mkdtemp. fold d. simpl.
    apply (Spec.inv_mkdir _ _ HR d (under_self d) w). }
  apply (preserves_finally _ _ HR); [| apply same_outside_rmtree].
  apply (preserves_try_except _ _ HR).
  - apply (preserves_bind _ _ HR); [now apply (preserves_git_clone _ _ HR) |].
    intros _. apply (preserves_bind _ _ HR).
    + apply (preserves_copy_template_files _ _ HR). intros entry Hentry.
      unfold Spec.relative in Hrel. rewrite Forall_forall in Hrel.
      destruct (Hrel entry (proj2 (list_elem_of_In _ _) Hentry)) as [Hdir Hfiles].
      split; [now apply under_join |].
      intros file Hfile. rewrite Forall_forall in Hfiles.
      apply under_dest; auto.
      apply Hfiles. now apply list_elem_of_In.
    + intros _. apply (preserves_bind _ _ HR).
      * apply (preserves_commit_and_push _ _ HR).
      * intros _. apply (preserves_ret _ _ HR).
  - intros _. apply (preserves_ret _ _ HR).
Qed.

(** The populate stage ends with its temporary directory erased. *)
Lemma populate_erases cfg env repo_url template_path app w :
  let d := Sys.tmpname env (Sys.trace w) in
  exists w0,
    snd (Agent.populate_repo_from_stack cfg env repo_url template_path app w)
    = Sys.erase d w0.
Proof.
  intros d. unfold Agent.populate_repo_from_stack, Sys.with_temporary_directory.
  unfold Sys.bind at 1. cbv beta iota zeta.
  change (Sys.mkdtemp env w) with (Sys.Returns d, snd (Sys.mkdtemp env w)).
  cbv beta iota. unfold Sys.finally.
  destruct (Sys.try_except _ _ _) as [r w1]. unfold Sys.rmtree. simpl.
  now eexists.
Qed.

(** The registrar removes its manifest file whatever [kubectl] did. *)
Lemma apply_removes_manifest env manifest app_name w :
  let f := Sys.tmpname env (Sys.trace w) +:+ ".yaml" in
  exists r w',
    Agent._apply_kubernetes_manifest env manifest app_name w = (r, w')
    /\ Sys.fs w' = delete f (<[f := manifest]> (Sys.fs w))
    /\ Sys.dirs w' = Sys.dirs w.
Proof.
  intros f.
  unfold Agent._apply_kubernetes_manifest, Sys.bind, Sys.named_temporary_file.
  fold f. cbv beta iota zeta.
  unfold Sys.finally, Agent.try_except_process, Sys.subprocess_run, Sys.bind, Sys.ask,
    Sys.unlink.
  cbv beta iota zeta.
  destruct (Sys.exec env _ _) as [[|n] out err | msg];
    simpl; rewrite lookup_insert_eq; now eexists _, _.
Qed.

(** C8 (amended).  In [OnboardingAgent] scratch resources are scoped
    per invocation and always released.  A populate call works in the
    directory [tempfile] names for it and always returns; when it
    returns, nothing exists at that directory or below it, and, the
    name being unused before and the template tree having relative
    names, the file system is what it was before the call.  The
    registrar removes its manifest file whether [kubectl apply]
    succeeds, fails or cannot be run, and leaves the file system as it
    was.  The function-based variant has no such scoping. *)
Theorem C8_scratch_is_released :
  (forall cfg env repo_url template_path app w,
      let d := Sys.tmpname env (Sys.trace w) in
      exists b w',
        Agent.populate_repo_from_stack cfg env repo_url template_path app w
        = (Sys.Returns b, w')
        /\ (forall p, Str.under d p = true -> Sys.fs w' !! p = None /\ p ∉ Sys.dirs w')
        /\ (Spec.unused d w -> Spec.relative (Sys.walk env template_path) ->
            Sys.fs w' = Sys.fs w /\ Sys.dirs w' = Sys.dirs w))
  /\ (forall env manifest app_name w,
      let f := Sys.tmpname env (Sys.trace w) +:+ ".yaml" in
      exists r w',
        Agent._apply_kubernetes_manifest env manifest app_name w = (r, w')
        /\ Sys.fs w' !! f = None
        /\ Sys.dirs w' = Sys.dirs w
        /\ (Sys.fs w !! f = None -> Sys.fs w' = Sys.fs w)).
Proof.
  split.
  - intros cfg env repo_url template_path app w d.
    destruct (yields_populate cfg env repo_url template_path app w) as (b & Hb & _).
    destruct (populate_erases cfg env repo_url template_path app w) as (w0 & Hw0).
    pose proof (populate_same_outside cfg env repo_url template_path app w) as Hsame.
    destruct (Agent.populate_repo_from_stack cfg env repo_url template_path app w)
      as [r w'].
    simpl in *. subst r w'. fold d in Hsame |- *.
    exists b, (Sys.erase d w0). split; [reflexivity |]. split.
    + intros p Hp. split; [now apply erase_fs_lookup | now apply erase_dirs_elem].
    + intros Hun Hrel. destruct (Hsame Hrel) as [Hfs Hdirs].
      destruct (erase_idem d w0) as [Ifs Idirs].
      destruct (erase_unused d w Hun) as [Ufs Udirs].
      split; congruence.
  - intros env manifest app_name w f.
    destruct (apply_removes_manifest env manifest app_name w) as (r & w' & E & Hfs & Hd).
    fold f in Hfs. exists r, w'. split; [exact E |].
    rewrite Hfs. split; [apply lookup_delete_eq |]. split; [exact Hd |].
    intros Hnone. now apply delete_insert_id.
Qed.

Lemma demo_unused (d : string) : Spec.unused d Demo.w0.
Proof.
  intros p _. split; [apply lookup_empty | apply not_elem_of_empty].
Defined.

Lemma demo_relative (path : string) (e : Sys.Env) :
  Sys.tree e = Demo.templates -> Spec.relative (Sys.walk e path).
Proof.
  intros He. unfold Sys.walk. rewrite He. unfold Demo.templates.
  destruct (String.eqb path "/templates/app");
    [| destruct (String.eqb path "/templates/gitops")];
    repeat (constructor; simpl; auto).
Defined.

Lemma C8_scratch_is_released_witness :
  let env := Demo.env None None Demo.host Demo.clone_fails in
  let env' := Demo.env None None Demo.host Demo.kubectl_fails in
  (Spec.unused "/tmp/tmp" Demo.w0
   /\ Spec.relative (Sys.walk env "/templates/app")
   /\ exists b w',
       Agent.populate_repo_from_stack Demo.cfg env "https://github.com/dev/shop-source.git"
         "/templates/app" Demo.shop Demo.w0 = (Sys.Returns b, w')
       /\ Sys.fs w' = ∅ /\ Sys.dirs w' = ∅)
  /\ (Sys.fs Demo.w0 !! "/tmp/tmp.yaml" = None
      /\ exists r w',
          Agent._apply_kubernetes_manifest env' "kind: Application" "shop" Demo.w0 = (r, w')
          /\ Sys.fs w' = ∅).
Proof.
  intros env env'.
  destruct C8_scratch_is_released as [H1 H2].
  split.
  - assert (Hu : Spec.unused "/tmp/tmp" Demo.w0) by apply demo_unused.
    assert (Hr : Spec.relative (Sys.walk env "/templates/app"))
      by now apply demo_relative.
    split; [exact Hu |]. split; [exact Hr |].
    destruct (H1 Demo.cfg env "https://github.com/dev/shop-source.git" "/templates/app"
                Demo.shop Demo.w0) as (b & w' & E & _ & Hframe).
    exists b, w'. split; [exact E |]. exact (Hframe Hu Hr).
  - split; [apply lookup_empty |].
    destruct (H2 env' "kind: Application" "shop" Demo.w0) as (r & w' & E & _ & _ & Hframe).
    exists r, w'. split; [exact E |]. apply Hframe, lookup_empty.
Defined.

(** C8 as stated fails on the function-based variant: its clone
    stays in [/tmp/<repository>] and its manifest in
    [/tmp/<name>-argocd.yaml] after the calls have returned. *)
Lemma C8_counterexample :
  let env := Demo.env None None Demo.host Demo.ok in
  let populated :=
    GoldenPath.populate_repo_from_stack env "https://github.com/dev/shop-gitops.git"
      "/templates/gitops" "shop" "A shop" Demo.w0 in
  let registered :=
    GoldenPath.create_argocd_application env "shop"
      "https://github.com/dev/shop-gitops.git" Demo.w0 in
  fst populated = Sys.Returns true
  /\ Sys.fs (snd populated) !! "/tmp/shop-gitops/app.yaml" = Some "name: {{appName}}!"
  /\ "/tmp/shop-gitops" ∈ Sys.dirs (snd populated)
  /\ fst registered = Sys.Returns true
  /\ Sys.fs (snd registered) !! "/tmp/shop-argocd.yaml"
     = Some (GoldenPath.app_manifest "shop" "https://github.com/dev/shop-gitops.git").
Proof.
  repeat split; vm_compute; reflexivity.
Qed.
